(** * The user service of the recipe book: sign-up, login, logout, token refresh

    A shallow embedding of [internal/service/user.go] and
    [internal/model/domain/user.go].  The service is written against three
    interfaces (the user repository, the auth service, and the runtime:
    bcrypt, the clock, the base service); the embedding keeps them as type
    classes, so that every statement about the service's own code holds for
    any implementation.  A second part gives one implementation of the
    interfaces, following the design document, on which the statements that
    depend on what the stores do are settled.

    Left out: the [ctx] argument, which the service only passes on (a store
    call that is cancelled or times out is a store call that fails), and the
    zerolog calls, which change neither a result nor a store. *)

From Stdlib Require Import ZArith String List Bool Lia.
From stdpp Require Import gmap strings pretty.
Import ListNotations.

Local Open Scope string_scope.
#[local] Set Warnings "-register-all".

(** ** Go's error values *)

Module errors.

(** Go compares error values by pointer.  A value held in a package-level
    variable ([var ErrX = errors.New(..)]) has the identity of that
    variable; a value built during a call ([fmt.Errorf]) is a fresh
    allocation, which is identical to no package-level variable. *)
Inductive addr : Type :=
  | pkgvar (name : string)
  | fresh.

(** The three concrete types behind the errors of this program:
    [*errors.errorString] (from [errors.New], and from [fmt.Errorf] without
    a [%w] verb), [*fmt.wrapError] (from [fmt.Errorf] with one [%w]) and
    [*errors.joinError] (from [errors.Join]). *)
Inductive error : Type :=
  | errorString (a : addr) (s : string)
  | wrapError (a : addr) (msg : string) (err : error)
  | joinError (a : addr) (errs : list error).

Definition addr_of (e : error) : addr :=
  match e with
  | errorString a _ | wrapError a _ _ | joinError a _ => a
  end.

Definition addr_eqb (a b : addr) : bool :=
  match a, b with
  | pkgvar x, pkgvar y => String.eqb x y
  | fresh, fresh => true
  | _, _ => false
  end.

(** Equality of two error values as trees. *)
Fixpoint eqb (x y : error) : bool :=
  match x, y with
  | errorString a s, errorString b t => addr_eqb a b && String.eqb s t
  | wrapError a m e, wrapError b n f =>
      addr_eqb a b && String.eqb m n && eqb e f
  | joinError a es, joinError b fs =>
      addr_eqb a b &&
      (fix all2 (l l' : list error) : bool :=
         match l, l' with
         | [], [] => true
         | e :: r, f :: r' => eqb e f && all2 r r'
         | _, _ => false
         end) es fs
  | _, _ => false
  end.

(** [err == target].  A value held in a package-level variable is the
    pointer of that variable, the same as itself and as no other.  A value
    built during a call is named here by its content: it is the same pointer
    as itself and as no package-level value.  (Two allocations of equal
    content, made by two calls, are one value here; no statement of this
    file compares two such.) *)
Definition same (err target : error) : bool :=
  match addr_of err, addr_of target with
  | pkgvar x, pkgvar y => String.eqb x y
  | fresh, fresh => eqb err target
  | _, _ => false
  end.

(** [err.Error()] *)
Fixpoint Error (e : error) : string :=
  match e with
  | errorString _ s => s
  | wrapError _ msg _ => msg
  | joinError _ errs =>
      (fix join (l : list error) : string :=
         match l with
         | [] => ""
         | [x] => Error x
         | x :: rest => Error x +:+ String (Ascii.ascii_of_nat 10) (join rest)
         end) errs
  end.

(** [errors.Is(err, target)] for a non-nil [err]: walk the tree of [err]
    ([Unwrap() error] of a wrapError, [Unwrap() []error] of a joinError,
    depth first) and compare every node with [target].  None of the three
    types has an [Is] method. *)
Fixpoint Is (err target : error) : bool :=
  same err target ||
  match err with
  | errorString _ _ => false
  | wrapError _ _ e => Is e target
  | joinError _ errs => existsb (fun e => Is e target) errs
  end.

(** [errors.New(text)] assigned to the package-level variable [v]. *)
Definition New (v text : string) : error := errorString (pkgvar v) text.

(** [errors.Join(errs...)] assigned to the package-level variable [v]
    (all [errs] non-nil). *)
Definition Join (v : string) (errs : list error) : error :=
  joinError (pkgvar v) errs.

End errors.

Abbreviation error := errors.error.

Module fmt.

(** [fmt.Errorf(text)], no verb in [text]. *)
Definition Errorf (text : string) : error :=
  errors.errorString errors.fresh text.

(** [fmt.Errorf(prefix + "%w", err)]: the message is formatted once, the
    operand is kept for [Unwrap]. *)
Definition Errorf_w (prefix : string) (err : error) : error :=
  errors.wrapError errors.fresh (prefix +:+ errors.Error err) err.

End fmt.

(** Sentinels of the libraries the service tests against or may be handed. *)

Module sql.
Definition ErrNoRows : error :=
  errors.New "sql.ErrNoRows" "sql: no rows in result set".
Definition ErrConnDone : error :=
  errors.New "sql.ErrConnDone" "sql: connection is already closed".
End sql.

Module context.
(** [context.DeadlineExceeded] is a package-level value of a comparable
    struct type with no [Is] and no [Unwrap] method. *)
Definition DeadlineExceeded : error :=
  errors.New "context.DeadlineExceeded" "context deadline exceeded".
End context.

Module bcrypt.
Definition ErrMismatchedHashAndPassword : error :=
  errors.New "bcrypt.ErrMismatchedHashAndPassword"
      "crypto/bcrypt: hashedPassword is not the hash of the given password".
Definition ErrHashTooShort : error :=
  errors.New "bcrypt.ErrHashTooShort"
      "crypto/bcrypt: hashedSecret too short to be a bcrypted password".
Definition DefaultCost : Z := 10.
End bcrypt.

(** ** Package time: durations are int64 nanoseconds, instants are kept as
    nanoseconds since the epoch. *)

Module time.
Local Open Scope Z_scope.

Definition Duration := Z.
Definition Time := Z.

Definition Nanosecond : Duration := 1.
Definition Microsecond : Duration := 1000 * Nanosecond.
Definition Millisecond : Duration := 1000 * Microsecond.
Definition Second : Duration := 1000 * Millisecond.
Definition Minute : Duration := 60 * Second.
Definition Hour : Duration := 60 * Minute.

(** [t.Before(u)] *)
Definition Before (t u : Time) : bool := (t <? u)%Z.
End time.

(** ** internal/model/domain/user.go *)

Module domain.

Definition ErrNoCredentialsProvided : error :=
  errors.New "domain.ErrNoCredentialsProvided" "no credentials provided".
Definition ErrUserNotFound : error :=
  errors.New "domain.ErrUserNotFound" "user not found".
Definition ErrInvalidCredentials : error :=
  errors.New "domain.ErrInvalidCredentials" "invalid credentials".
Definition ErrJWTGeneration : error :=
  errors.New "domain.ErrJWTGeneration" "error generating jwt token".
Definition ErrUnauthorized : error :=
  errors.Join "domain.ErrUnauthorized"
      [ErrInvalidCredentials; ErrNoCredentialsProvided; ErrUserNotFound].

(** Modelled from the spec: AlreadyExists, the error of a sign-up with a
    registered email.  SignUp returns [domain.ErrUserAlreadyExists], which is
    declared elsewhere in the domain package; only its identity matters
    here. *)
Definition ErrUserAlreadyExists : error :=
  errors.New "domain.ErrUserAlreadyExists" "user already exists".

(** [time.Hour * 72], within int64. *)
Definition JWTExpiration : time.Duration := (time.Hour * 72)%Z.

Module UserSignup.
Record t := mk { Email : string; Password : string }.
End UserSignup.

Module UserCredentials.
Record t := mk { Email : string; Password : string }.
End UserCredentials.

Module User.
Record t := mk { ID : N; UUID : string; Email : string; Password : string }.
End User.

(** Modelled from the spec: the claims of an access token, of which Logout
    reads the subject, [claims.UserID], and the expiry,
    [claims.ExpiresAt.Time] (the type is declared elsewhere in the domain
    package). *)
Module JWTCustomClaims.
Record t := mk { UserID : N; ExpiresAt : time.Time }.
End JWTCustomClaims.

(** Modelled from the spec: the stored refresh-token record, with its
    owning user, its opaque value and its expiry (the type is declared
    elsewhere in the domain package); RefreshToken reads [ExpiresAt]. *)
Module RefreshToken.
Record t := mk { UserID : N; Token : string; ExpiresAt : time.Time }.
End RefreshToken.

End domain.

(** The response of Login and RefreshToken, with the two fields the service
    fills (the type is declared in the endpoint package). *)
Module endpoint.
Module JWTResponse.
Record t := mk { Token : string; RefreshToken : string }.
End JWTResponse.
End endpoint.

(** ** The interfaces the service is written against

    [W] is the state of everything outside the service: the database, the
    cache, the clock, the random source.  A Go method returning [(T, error)]
    returns a pair here, with [None] for nil. *)

Module repo.

Class UserRepo (W : Type) : Type := {
  ByEmail : string -> W -> (option domain.User.t * option error) * W;
  ByEmailWithPassword : string -> W -> (option domain.User.t * option error) * W;
  Create : string -> string -> string -> W -> option error * W
}.

End repo.

Module service.

Import domain endpoint.

Class AuthService (W : Type) : Type := {
  GenerateToken : User.t -> W -> (string * option error) * W;
  GenerateRefreshToken : N -> W -> (string * option error) * W;
  BlacklistToken : string -> N -> time.Time -> W -> option error * W;
  DeleteRefreshToken : N -> W -> option error * W;
  ByRefreshToken : N -> string -> W -> (option RefreshToken.t * option error) * W
}.

(** What the service uses of bcrypt, of package time and of its embedded
    BaseService. *)
Class Runtime (W : Type) : Type := {
  GenerateFromPassword : string -> Z -> W -> (string * option error) * W;
  CompareHashAndPassword : string -> string -> option error;
  GenerateUUIDHash : string -> W -> string * W;
  Now : W -> time.Time * W
}.

(** The calls the service makes on its two collaborators. *)
Inductive call : Type :=
  | userRepo_ByEmail (email : string)
  | userRepo_ByEmailWithPassword (email : string)
  | userRepo_Create (uuid email password : string)
  | authService_GenerateToken (user : User.t)
  | authService_GenerateRefreshToken (userID : N)
  | authService_BlacklistToken (token : string) (userID : N) (expiresAt : time.Time)
  | authService_DeleteRefreshToken (userID : N)
  | authService_ByRefreshToken (userID : N) (refreshToken : string).

(** A call and the error it returned; the trace keeps them in the order the
    calls are made. *)
Definition event : Type := call * option error.

Record state (W : Type) : Type := mkstate { outside : W; trace : list event }.
Arguments mkstate {W}.
Arguments outside {W}.
Arguments trace {W}.

(** A call of the service either returns or panics (nil dereference). *)
Inductive outcome (A : Type) : Type :=
  | Returned (a : A)
  | Panicked.
Arguments Returned {A}.
Arguments Panicked {A}.

Definition M (W A : Type) : Type := state W -> outcome A * state W.

Definition ret {W A} (a : A) : M W A := fun s => (Returned a, s).

Definition bind {W A B} (m : M W A) (k : A -> M W B) : M W B :=
  fun s =>
    match m s with
    | (Returned a, s') => k a s'
    | (Panicked, s') => (Panicked, s')
    end.

(** [p.f] on a pointer [p] *)
Definition deref {W A} (p : option A) : M W A :=
  fun s => match p with Some a => (Returned a, s) | None => (Panicked, s) end.

(** A library call: it may read and advance the outside world. *)
Definition lift {W A} (op : W -> A * W) : M W A :=
  fun s => let (a, w) := op (outside s) in (Returned a, mkstate w (trace s)).

(** A call on a collaborator: run, and recorded with the error it gave. *)
Definition invoke {W A} (c : call) (err_of : A -> option error)
    (op : W -> A * W) : M W A :=
  fun s =>
    let (a, w) := op (outside s) in
    (Returned a, mkstate w (trace s ++ [(c, err_of a)])).

Declare Scope go_scope.
Delimit Scope go_scope with go.
Notation "'let*' p := m 'in' k" := (bind m (fun p => k))
  (at level 10, p pattern, m at level 100, k at level 200) : go_scope.
Local Open Scope go_scope.

Section userService.

Context {W : Type}.
Context {userRepo : repo.UserRepo W}.
Context {authService : AuthService W}.
Context {runtime : Runtime W}.

Definition u_userRepo_ByEmail (email : string) :=
  invoke (userRepo_ByEmail email) snd (repo.ByEmail email).
Definition u_userRepo_ByEmailWithPassword (email : string) :=
  invoke (userRepo_ByEmailWithPassword email) snd
         (repo.ByEmailWithPassword email).
Definition u_userRepo_Create (uuid email password : string) :=
  invoke (userRepo_Create uuid email password) id
         (repo.Create uuid email password).
Definition u_authService_GenerateToken (user : User.t) :=
  invoke (authService_GenerateToken user) snd (GenerateToken user).
Definition u_authService_GenerateRefreshToken (userID : N) :=
  invoke (authService_GenerateRefreshToken userID) snd
         (GenerateRefreshToken userID).
Definition u_authService_BlacklistToken (token : string) (userID : N) (expiresAt : time.Time) :=
  invoke (authService_BlacklistToken token userID expiresAt) id
         (BlacklistToken token userID expiresAt).
Definition u_authService_DeleteRefreshToken (userID : N) :=
  invoke (authService_DeleteRefreshToken userID) id
         (DeleteRefreshToken userID).
Definition u_authService_ByRefreshToken (userID : N) (refreshToken : string) :=
  invoke (authService_ByRefreshToken userID refreshToken) snd
         (ByRefreshToken userID refreshToken).

(** func (u *userService) ByEmail *)
Definition ByEmail (email : string) : M W (option User.t * option error) :=
  let* (user, err) := u_userRepo_ByEmail email in
  match err with
  | Some err =>
      if errors.Is err sql.ErrNoRows
      then ret (None, Some (fmt.Errorf_w "user not found: " ErrUserNotFound))
      else ret (None, Some err)
  | None => ret (user, None)
  end.

(** func (u *userService) ByEmailWithPassword *)
Definition ByEmailWithPassword (email : string) : M W (option User.t * option error) :=
  let* (user, err) := u_userRepo_ByEmailWithPassword email in
  match err with
  | Some err =>
      if errors.Is err sql.ErrNoRows
      then ret (None, Some (fmt.Errorf_w "user not found: " ErrUserNotFound))
      else ret (None, Some err)
  | None => ret (user, None)
  end.

(** func (u *userService) SignUp *)
Definition SignUp (userSignup : option UserSignup.t) : M W (option error) :=
  match userSignup with
  | None => ret (Some (fmt.Errorf "no user sign up details provided"))
  | Some userSignup =>
      (* check if email exists already *)
      let* (user, err) := ByEmail (UserSignup.Email userSignup) in
      if match err with
         | Some err => negb (errors.Is err ErrUserNotFound)
         | None => false
         end
      then ret err
      else
        match user with
        | Some _ => ret (Some ErrUserAlreadyExists)
        | None =>
            let* (hashedPassword, err) :=
               lift (GenerateFromPassword (UserSignup.Password userSignup)
                                          bcrypt.DefaultCost) in
            match err with
            | Some err => ret (Some err)
            | None =>
                (* generate uuid *)
                let* uuid := lift (GenerateUUIDHash "user") in
                let* err := u_userRepo_Create uuid (UserSignup.Email userSignup)
                                         hashedPassword in
                match err with
                | Some err => ret (Some (fmt.Errorf_w "error creating user: " err))
                | None => ret None
                end
            end
        end
  end.

(** func (u *userService) Login *)
Definition Login (userCredentials : option UserCredentials.t)
  : M W (option JWTResponse.t * option error) :=
  match userCredentials with
  | None =>
      ret (None, Some (fmt.Errorf_w "no user login credentials provided: "
                                    ErrNoCredentialsProvided))
  | Some userCredentials =>
      let* (user, err) := ByEmailWithPassword (UserCredentials.Email userCredentials) in
      match err with
      | Some err => ret (None, Some err)
      | None =>
          let* user := deref user in
          (* Compare the stored hash with the provided password *)
          match CompareHashAndPassword (User.Password user)
                                       (UserCredentials.Password userCredentials) with
          | Some err =>
              if errors.Is err bcrypt.ErrMismatchedHashAndPassword
              then ret (None, Some (fmt.Errorf_w "invalid credentials: "
                                                 ErrInvalidCredentials))
              else ret (None, Some err)
          | None =>
              let* (token, err) := u_authService_GenerateToken user in
              match err with
              | Some err => ret (None, Some err)
              | None =>
                  let* (refreshToken, err) :=
                     u_authService_GenerateRefreshToken (User.ID user) in
                  match err with
                  | Some err => ret (None, Some err)
                  | None =>
                      ret (Some (JWTResponse.mk token refreshToken), None)
                  end
              end
          end
      end
  end.

(** func (u *userService) Logout *)
Definition Logout (token : string) (claims : option JWTCustomClaims.t)
  : M W (option error) :=
  let* claims := deref claims in
  let* err := u_authService_BlacklistToken token (JWTCustomClaims.UserID claims)
                                      (JWTCustomClaims.ExpiresAt claims) in
  match err with
  | Some err => ret (Some err)
  | None => u_authService_DeleteRefreshToken (JWTCustomClaims.UserID claims)
  end.

(** func (u *userService) RefreshToken *)
Definition RefreshToken (jwtToken : string) (user : option User.t)
    (refreshToken : string) (expiresAt : time.Time)
  : M W (option JWTResponse.t * option error) :=
  let* user := deref user in
  (* make sure refresh token exists *)
  let* (rt, err) := u_authService_ByRefreshToken (User.ID user) refreshToken in
  match err with
  | Some err => ret (None, Some err)
  | None =>
      let* rt := deref rt in
      let* now := lift Now in
      (* if the token has expired, delete it and return unauthorized *)
      if time.Before (RefreshToken.ExpiresAt rt) now
      then
        let* err := u_authService_DeleteRefreshToken (User.ID user) in
        match err with
        | Some err => ret (None, Some err)
        | None => ret (None, Some ErrUnauthorized)
        end
      else
        (* refresh the token and generate a JWT token *)
        let* (newJwtToken, err) := u_authService_GenerateToken user in
        match err with
        | Some err => ret (None, Some err)
        | None =>
            let* (newRefreshToken, err) :=
               u_authService_GenerateRefreshToken (User.ID user) in
            match err with
            | Some err => ret (None, Some err)
            | None =>
                (* blacklist jwtToken *)
                let* err := u_authService_BlacklistToken jwtToken (User.ID user) expiresAt in
                match err with
                | Some err => ret (None, Some err)
                | None =>
                    ret (Some (JWTResponse.mk newJwtToken newRefreshToken), None)
                end
            end
        end
  end.

End userService.

End service.

(** ** The collaborators, after the design document

    The auth service and the user repository are given only by their
    interfaces above.  This module gives one implementation of them, with
    the stores as finite maps and with scripted outages, so that statements
    about what is stored can be made and run. *)

Module design.

Import domain service.

(** Modelled from the spec: StorageUnavailable, the transient failure of a
    backing store: a call that times out, or finds the connection closed. *)
Inductive fault : Type :=
  | Timeout
  | ConnDone.

(** Modelled from the spec: the error a store call hands back when it
    fails that way. *)
Definition store_error (f : fault) : error :=
  match f with
  | Timeout => context.DeadlineExceeded
  | ConnDone => sql.ErrConnDone
  end.

(** Modelled from the spec: the state behind the AuthService and the user
    lookup, which are missing: the account table, the RefreshTokenStore (one
    record per user), the RevocationStore (keyed by what BlacklistToken is
    handed, each entry with the instant it expires at), the clock, the random
    source with the number of values drawn so far, the refresh-token
    time-to-live, and a script saying which of the coming collaborator calls
    fail. *)
Record world : Type := mkworld {
  users : list User.t;
  refresh_tokens : gmap N RefreshToken.t;
  revoked : gmap string (N * time.Time);
  clock : time.Time;
  random : nat -> string;
  drawn : nat;
  refresh_ttl : time.Duration;
  faults : list (option fault)
}.

Definition set_users (us : list User.t) (w : world) : world :=
  mkworld us (refresh_tokens w) (revoked w) (clock w) (random w) (drawn w)
          (refresh_ttl w) (faults w).
Definition set_refresh_tokens (m : gmap N RefreshToken.t) (w : world) : world :=
  mkworld (users w) m (revoked w) (clock w) (random w) (drawn w)
          (refresh_ttl w) (faults w).
Definition set_revoked (m : gmap string (N * time.Time)) (w : world) : world :=
  mkworld (users w) (refresh_tokens w) m (clock w) (random w) (drawn w)
          (refresh_ttl w) (faults w).
Definition set_drawn (n : nat) (w : world) : world :=
  mkworld (users w) (refresh_tokens w) (revoked w) (clock w) (random w) n
          (refresh_ttl w) (faults w).
Definition set_faults (fs : list (option fault)) (w : world) : world :=
  mkworld (users w) (refresh_tokens w) (revoked w) (clock w) (random w)
          (drawn w) (refresh_ttl w) fs.

(** Every collaborator call first takes the head of the script; an exhausted
    script means no outage. *)
Definition pop (w : world) : world := set_faults (tl (faults w)) w.

Definition next_fault (w : world) : option fault * world :=
  (hd None (faults w), pop w).

(** The outage, if any, of the [n]-th coming collaborator call. *)
Definition fault_at (n : nat) (w : world) : option fault :=
  nth n (faults w) None.

Definition draw (w : world) : string * world :=
  (random w (drawn w), set_drawn (S (drawn w)) w).

Definition find_user (email : string) (us : list User.t) : option User.t :=
  List.find (fun u => String.eqb (User.Email u) email) us.

(** Modelled from the spec: UserLookup, [ByEmail(email) -> User|NotFound];
    the row comes without the password hash, and NotFound is the relational
    store's no-rows error. *)
Definition repo_ByEmail (email : string) (w : world)
  : (option User.t * option error) * world :=
  match next_fault w with
  | (Some f, w) => ((None, Some (store_error f)), w)
  | (None, w) =>
      match find_user email (users w) with
      | Some u =>
          ((Some (User.mk (User.ID u) (User.UUID u) (User.Email u) ""), None), w)
      | None => ((None, Some sql.ErrNoRows), w)
      end
  end.

(** Modelled from the spec: UserLookup,
    [ByEmailWithPasswordHash(email) -> User|NotFound]. *)
Definition repo_ByEmailWithPassword (email : string) (w : world)
  : (option User.t * option error) * world :=
  match next_fault w with
  | (Some f, w) => ((None, Some (store_error f)), w)
  | (None, w) =>
      match find_user email (users w) with
      | Some u => ((Some u, None), w)
      | None => ((None, Some sql.ErrNoRows), w)
      end
  end.

(** Modelled from the spec: the account-management collaborator's insert;
    the new row gets the next numeric identifier. *)
Definition repo_Create (uuid email password : string) (w : world)
  : option error * world :=
  match next_fault w with
  | (Some f, w) => (Some (store_error f), w)
  | (None, w) =>
      (None,
       set_users (users w ++ [User.mk (N.of_nat (S (length (users w))))
                                      uuid email password]) w)
  end.

(** Modelled from the spec: SignedTokenIssuer.Issue.  The signed claims
    object is opaque to the service; it is stood for by its fresh random
    token identifier.  Nothing is persisted.  A failure of the signing
    primitive is the TokenGenerationFailure of the taxonomy. *)
Definition auth_GenerateToken (user : User.t) (w : world)
  : (string * option error) * world :=
  match next_fault w with
  | (Some _, w) => (("", Some ErrJWTGeneration), w)
  | (None, w) => let (tok, w) := draw w in ((tok, None), w)
  end.

(** Modelled from the spec: RefreshTokenStore.Put, overwriting the record
    of that user. *)
Definition Put (userID : N) (token : string) (expiresAt : time.Time)
    (w : world) : world :=
  set_refresh_tokens
    (<[userID := RefreshToken.mk userID token expiresAt]> (refresh_tokens w)) w.

(** Modelled from the spec: issue a new refresh token (random value, fixed
    long time-to-live) and persist the record (overwrite). *)
Definition auth_GenerateRefreshToken (userID : N) (w : world)
  : (string * option error) * world :=
  match next_fault w with
  | (Some f, w) => (("", Some (store_error f)), w)
  | (None, w) =>
      let (tok, w) := draw w in
      ((tok, None), Put userID tok (clock w + refresh_ttl w)%Z w)
  end.

(** Modelled from the spec: RevocationStore.Add, an entry that expires at
    [expiresAt]; an instant already passed gives an entry that has expired
    at once (see [Contains]). *)
Definition auth_BlacklistToken (token : string) (userID : N)
    (expiresAt : time.Time) (w : world) : option error * world :=
  match next_fault w with
  | (Some f, w) => (Some (store_error f), w)
  | (None, w) => (None, set_revoked (<[token := (userID, expiresAt)]> (revoked w)) w)
  end.

(** Modelled from the spec: RevocationStore.Contains at instant [now]. *)
Definition Contains (w : world) (token : string) (now : time.Time) : bool :=
  match revoked w !! token with
  | Some (_, expiresAt) => time.Before now expiresAt
  | None => false
  end.

(** Modelled from the spec: RefreshTokenStore.Delete, idempotent. *)
Definition auth_DeleteRefreshToken (userID : N) (w : world)
  : option error * world :=
  match next_fault w with
  | (Some f, w) => (Some (store_error f), w)
  | (None, w) => (None, set_refresh_tokens (delete userID (refresh_tokens w)) w)
  end.

(** Modelled from the spec: RefreshTokenStore.Get, the stored record of the
    user, or NotFound when there is none.  The store does not filter on the
    presented value: the comparison of it with the stored value, like the
    comparison of the expiry with the clock, is left to the caller. *)
Definition auth_ByRefreshToken (userID : N) (refreshToken : string) (w : world)
  : (option RefreshToken.t * option error) * world :=
  match next_fault w with
  | (Some f, w) => ((None, Some (store_error f)), w)
  | (None, w) =>
      match refresh_tokens w !! userID with
      | None => ((None, Some sql.ErrNoRows), w)
      | Some rt => ((Some rt, None), w)
      end
  end.

(** A stand-in for bcrypt with the library's error contract: the digest of
    [p] is [p] behind a version prefix; comparing gives nil on a match,
    ErrMismatchedHashAndPassword on another password, and a different error
    on a malformed digest. *)
Definition digest_prefix : string := "$2a$10$".

Definition bcrypt_GenerateFromPassword (password : string) (cost : Z) (w : world)
  : (string * option error) * world :=
  ((digest_prefix +:+ password, None), w).

Definition bcrypt_CompareHashAndPassword (hashedPassword password : string)
  : option error :=
  if String.prefix digest_prefix hashedPassword
  then if String.eqb hashedPassword (digest_prefix +:+ password)
       then None
       else Some bcrypt.ErrMismatchedHashAndPassword
  else Some bcrypt.ErrHashTooShort.

(** BaseService.GenerateUUIDHash is declared elsewhere in the service
    package; a prefixed random value stands for it. *)
Definition base_GenerateUUIDHash (prefix : string) (w : world) : string * world :=
  let (v, w) := draw w in (prefix +:+ "-" +:+ v, w).

Definition time_Now (w : world) : time.Time * world := (clock w, w).

#[export] Instance userRepo : repo.UserRepo world := {
  repo.ByEmail := repo_ByEmail;
  repo.ByEmailWithPassword := repo_ByEmailWithPassword;
  repo.Create := repo_Create
}.

#[export] Instance authService : AuthService world := {
  GenerateToken := auth_GenerateToken;
  GenerateRefreshToken := auth_GenerateRefreshToken;
  BlacklistToken := auth_BlacklistToken;
  DeleteRefreshToken := auth_DeleteRefreshToken;
  ByRefreshToken := auth_ByRefreshToken
}.

#[export] Instance runtime : Runtime world := {
  GenerateFromPassword := bcrypt_GenerateFromPassword;
  CompareHashAndPassword := bcrypt_CompareHashAndPassword;
  GenerateUUIDHash := base_GenerateUUIDHash;
  Now := time_Now
}.

(** A run of a service call from a world, with an empty trace. *)
Definition run {A} (m : M world A) (w : world) : outcome A * state world :=
  m (mkstate w []).

End design.

(** * Notions used in the statements *)

Import domain endpoint service.

(** The classification a caller can make of an error [e] against the
    unauthorized class: [e] against the join and against each of its members,
    and the join against [e]. *)
Definition unauthorized_class (e : error) : bool :=
  errors.Is e ErrUnauthorized || errors.Is ErrUnauthorized e ||
  errors.Is e ErrInvalidCredentials || errors.Is e ErrNoCredentialsProvided ||
  errors.Is e ErrUserNotFound.

(** The errors Login and the lookups build themselves. *)
Definition user_not_found : error :=
  fmt.Errorf_w "user not found: " ErrUserNotFound.
Definition invalid_credentials : error :=
  fmt.Errorf_w "invalid credentials: " ErrInvalidCredentials.
Definition no_credentials : error :=
  fmt.Errorf_w "no user login credentials provided: " ErrNoCredentialsProvided.

(** What the two lookups of the service return, by the repository's answer. *)
Definition lookup_result (user : option User.t) (err : option error)
  : option User.t * option error :=
  match err with
  | Some e => if errors.Is e sql.ErrNoRows then (None, Some user_not_found)
              else (None, Some e)
  | None => (user, None)
  end.

(** [oe] is not the value held in [domain.ErrUnauthorized]. *)
Definition not_ErrUnauthorized (oe : option error) : Prop :=
  forall e, oe = Some e -> errors.same e ErrUnauthorized = false.

(** No collaborator and no library call hands [domain.ErrUnauthorized]
    itself back to the service. *)
Definition collaborators_keep_ErrUnauthorized {W : Type}
    (userRepo : repo.UserRepo W) (authService : AuthService W)
    (runtime : Runtime W) : Prop :=
  (forall email w, not_ErrUnauthorized (snd (fst (repo.ByEmail email w)))) /\
  (forall email w,
      not_ErrUnauthorized (snd (fst (repo.ByEmailWithPassword email w)))) /\
  (forall uuid email password w,
      not_ErrUnauthorized (fst (repo.Create uuid email password w))) /\
  (forall user w, not_ErrUnauthorized (snd (fst (GenerateToken user w)))) /\
  (forall userID w,
      not_ErrUnauthorized (snd (fst (GenerateRefreshToken userID w)))) /\
  (forall token userID expiresAt w,
      not_ErrUnauthorized (fst (BlacklistToken token userID expiresAt w))) /\
  (forall userID w, not_ErrUnauthorized (fst (DeleteRefreshToken userID w))) /\
  (forall userID refreshToken w,
      not_ErrUnauthorized (snd (fst (ByRefreshToken userID refreshToken w)))) /\
  (forall password cost w,
      not_ErrUnauthorized (snd (fst (GenerateFromPassword password cost w)))) /\
  (forall hashedPassword password,
      not_ErrUnauthorized (CompareHashAndPassword hashedPassword password)).

(** The last call made on a collaborator, with the error it returned. *)
Definition last_call (tr : list event) : option event := hd_error (rev tr).

(** A property of what a call returns, when it returns. *)
Definition when_returned {A} (P : A -> bool) (o : outcome A) : Prop :=
  match o with
  | Returned a => P a = true
  | Panicked => True
  end.

(** Exactly one of the value and the error is nil. *)
Definition exclusive {A} (r : option A * option error) : bool :=
  match r with
  | (Some _, None) | (None, Some _) => true
  | _ => false
  end.

(** The value and the error are not both non-nil. *)
Definition not_both {A} (r : option A * option error) : bool :=
  match r with
  | (Some _, Some _) => false
  | _ => true
  end.

(** Every call of the trace but the last returned a nil error. *)
Fixpoint fail_fast (tr : list event) : bool :=
  match tr with
  | [] => true
  | [_] => true
  | (_, None) :: rest => fail_fast rest
  | (_, Some _) :: _ => false
  end.

(** The repository has no user for the lookup: it answered with the no-rows
    error, or with a nil user and a nil error. *)
Definition no_user (user : option User.t) (err : option error) : Prop :=
  (user = None /\ err = None) \/
  (exists e, err = Some e /\ errors.Is e sql.ErrNoRows = true).

(** ** Collaborators that answer nil, nil

    Go lets a method return a nil pointer with a nil error.  These two
    collaborators do, on the world of the design: a repository whose lookups
    find nothing and report nothing, and an auth service whose lookup of the
    refresh record does the same. *)

Module stub.

Import design.

Definition nil_repo : repo.UserRepo world := {|
  repo.ByEmail := fun _ w => ((None, None), w);
  repo.ByEmailWithPassword := fun _ w => ((None, None), w);
  repo.Create := repo_Create
|}.

Definition nil_auth : AuthService world := {|
  GenerateToken := auth_GenerateToken;
  GenerateRefreshToken := auth_GenerateRefreshToken;
  BlacklistToken := auth_BlacklistToken;
  DeleteRefreshToken := auth_DeleteRefreshToken;
  ByRefreshToken := fun _ _ w => ((None, None), w)
|}.

(** bcrypt refuses a password of more than 72 bytes; this runtime is the one
    of the design with that refusal added. *)
Definition ErrPasswordTooLong : error :=
  errors.New "bcrypt.ErrPasswordTooLong" "bcrypt: password length exceeds 72 bytes".

Definition strict_runtime : Runtime world := {|
  GenerateFromPassword := fun password cost w =>
    if (72 <? String.length password)%nat
    then (("", Some ErrPasswordTooLong), w)
    else bcrypt_GenerateFromPassword password cost w;
  CompareHashAndPassword := bcrypt_CompareHashAndPassword;
  GenerateUUIDHash := base_GenerateUUIDHash;
  Now := time_Now
|}.

End stub.

(** ** A scenario: one registered user with a live refresh token *)

Module scenario.

Import design.

Definition alice : User.t :=
  User.mk 1 "user-7f3a" "a@x.com" (digest_prefix +:+ "secret123").

Definition values (n : nat) : string := "v" +:+ pretty n.

Definition R0 : RefreshToken.t := RefreshToken.mk 1 "v0" 1000%Z.

(** The clock reads 10; the access token in use is ["A0"], good until 500. *)
Definition w0 : world :=
  mkworld [alice] {[ 1%N := R0 ]} ∅ 10%Z values 1 5000%Z [].

(** The same, with the stored refresh token past its expiry. *)
Definition w_late : world :=
  mkworld [alice] {[ 1%N := R0 ]} ∅ 2000%Z values 1 5000%Z [].

End scenario.

(** * Properties *)

Local Open Scope list_scope.
Local Open Scope go_scope.

(** ** The service over any collaborators *)

Section Generic.

Context {W : Type}.
Context {userRepo : repo.UserRepo W}.
Context {authService : AuthService W}.
Context {runtime : Runtime W}.

Lemma bind_run {A B} (m : M W A) (k : A -> M W B) (s s' : state W) a :
  m s = (Returned a, s') -> bind m k s = k a s'.
Proof. intros H. unfold bind. rewrite H. reflexivity. Qed.

Lemma invoke_run {A} c (f : A -> option error) (op : W -> A * W) w0 tr a w :
  op w0 = (a, w) ->
  invoke c f op (mkstate w0 tr) = (Returned a, mkstate w (tr ++ [(c, f a)])).
Proof. intros H. unfold invoke. cbn. rewrite H. reflexivity. Qed.

Lemma lift_run {A} (op : W -> A * W) w0 tr a w :
  op w0 = (a, w) ->
  lift op (mkstate w0 tr) = (Returned a, mkstate w tr).
Proof. intros H. unfold lift. cbn. rewrite H. reflexivity. Qed.

(** One step of a service body: the next collaborator or library call is
    replaced by the answer known for it. *)
Ltac step H :=
  first [ rewrite (bind_run _ _ _ _ _ (invoke_run _ _ _ _ _ _ _ H))
        | rewrite (bind_run _ _ _ _ _ (lift_run _ _ _ _ _ H))
        | rewrite (invoke_run _ _ _ _ _ _ _ H) ];
  cbn [fst snd id].

Ltac open_state s :=
  let w0 := fresh "w0" in
  let tr := fresh "tr" in
  destruct s as [w0 tr]; cbn [outside trace] in *.

Lemma ByEmail_run email (s : state W) user err w :
  repo.ByEmail email (outside s) = ((user, err), w) ->
  ByEmail email s =
    (Returned (lookup_result user err),
     mkstate w (trace s ++ [(userRepo_ByEmail email, err)])).
Proof.
  intros H. open_state s. unfold ByEmail, u_userRepo_ByEmail. step H.
  unfold lookup_result.
  destruct err as [e|]; [destruct (errors.Is e sql.ErrNoRows)|]; reflexivity.
Qed.

Lemma ByEmailWithPassword_run email (s : state W) user err w :
  repo.ByEmailWithPassword email (outside s) = ((user, err), w) ->
  ByEmailWithPassword email s =
    (Returned (lookup_result user err),
     mkstate w (trace s ++ [(userRepo_ByEmailWithPassword email, err)])).
Proof.
  intros H. open_state s.
  unfold ByEmailWithPassword, u_userRepo_ByEmailWithPassword. step H.
  unfold lookup_result.
  destruct err as [e|]; [destruct (errors.Is e sql.ErrNoRows)|]; reflexivity.
Qed.

(** Login, once the lookup has failed. *)
Lemma Login_lookup_failed creds (s : state W) user e w :
  repo.ByEmailWithPassword (UserCredentials.Email creds) (outside s)
    = ((user, Some e), w) ->
  Login (Some creds) s =
    (Returned (None, snd (lookup_result user (Some e))),
     mkstate w (trace s ++
       [(userRepo_ByEmailWithPassword (UserCredentials.Email creds), Some e)])).
Proof.
  intros H. unfold Login.
  rewrite (bind_run _ _ _ _ _ (ByEmailWithPassword_run _ _ _ _ _ H)).
  unfold lookup_result. destruct (errors.Is e sql.ErrNoRows); reflexivity.
Qed.

(** Login, once the lookup has found the user and the comparison of the
    password with the stored hash has failed. *)
Lemma Login_compare_failed creds (s : state W) user e w :
  repo.ByEmailWithPassword (UserCredentials.Email creds) (outside s)
    = ((Some user, None), w) ->
  CompareHashAndPassword (User.Password user) (UserCredentials.Password creds)
    = Some e ->
  Login (Some creds) s =
    (Returned (None, Some (if errors.Is e bcrypt.ErrMismatchedHashAndPassword
                           then invalid_credentials else e)),
     mkstate w (trace s ++
       [(userRepo_ByEmailWithPassword (UserCredentials.Email creds), None)])).
Proof.
  intros H Hc. unfold Login.
  rewrite (bind_run _ _ _ _ _ (ByEmailWithPassword_run _ _ _ _ _ H)).
  cbn. rewrite Hc.
  destruct (errors.Is e bcrypt.ErrMismatchedHashAndPassword); reflexivity.
Qed.

(** Login, once the user is found and the password matches: the two tokens
    are generated in turn, and the first error ends the call. *)
Lemma Login_run creds (s : state W) user w :
  repo.ByEmailWithPassword (UserCredentials.Email creds) (outside s)
    = ((Some user, None), w) ->
  CompareHashAndPassword (User.Password user) (UserCredentials.Password creds)
    = None ->
  Login (Some creds) s =
    let ev0 := (userRepo_ByEmailWithPassword (UserCredentials.Email creds), None) in
    let '((token, err1), w1) := GenerateToken user w in
    let ev1 := (authService_GenerateToken user, err1) in
    match err1 with
    | Some e => (Returned (None, Some e), mkstate w1 ((trace s ++ [ev0]) ++ [ev1]))
    | None =>
        let '((refreshToken, err2), w2) := GenerateRefreshToken (User.ID user) w1 in
        let ev2 := (authService_GenerateRefreshToken (User.ID user), err2) in
        (Returned (match err2 with
                   | Some e => (None, Some e)
                   | None => (Some (JWTResponse.mk token refreshToken), None)
                   end),
         mkstate w2 (((trace s ++ [ev0]) ++ [ev1]) ++ [ev2]))
    end.
Proof.
  intros H Hc. unfold Login.
  rewrite (bind_run _ _ _ _ _ (ByEmailWithPassword_run _ _ _ _ _ H)).
  cbn [lookup_result]. cbv beta iota.
  rewrite (bind_run (deref (Some user)) _ _ _ user eq_refl).
  rewrite Hc. unfold u_authService_GenerateToken, u_authService_GenerateRefreshToken.
  destruct (GenerateToken user w) as [[token err1] w1] eqn:H1. step H1.
  destruct err1 as [e|]; [reflexivity|].
  destruct (GenerateRefreshToken (User.ID user) w1) as [[refreshToken err2] w2] eqn:H2.
  step H2. destruct err2; reflexivity.
Qed.

(** The bodies of the other methods, with their binds carried out: each
    collaborator call is made on the world the previous one left, and the
    first return reached ends the call. *)

Ltac step_deref :=
  match goal with
  | |- context [bind (deref (Some ?x)) _ _] =>
      rewrite (bind_run (deref (Some x)) _ _ _ x eq_refl)
  end.

Ltac unfold_calls :=
  unfold u_userRepo_ByEmail, u_userRepo_ByEmailWithPassword, u_userRepo_Create,
    u_authService_GenerateToken, u_authService_GenerateRefreshToken,
    u_authService_BlacklistToken, u_authService_DeleteRefreshToken,
    u_authService_ByRefreshToken.

Lemma SignUp_run signup (s : state W) :
  SignUp (Some signup) s =
    let email := UserSignup.Email signup in
    let '((user, err0), w1) := repo.ByEmail email (outside s) in
    let t0 := trace s ++ [(userRepo_ByEmail email, err0)] in
    let '(user, err) := lookup_result user err0 in
    if match err with
       | Some e => negb (errors.Is e ErrUserNotFound)
       | None => false
       end
    then (Returned err, mkstate w1 t0)
    else
      match user with
      | Some _ => (Returned (Some ErrUserAlreadyExists), mkstate w1 t0)
      | None =>
          let '((hashedPassword, err1), w2) :=
            GenerateFromPassword (UserSignup.Password signup) bcrypt.DefaultCost w1 in
          match err1 with
          | Some e => (Returned (Some e), mkstate w2 t0)
          | None =>
              let '(uuid, w3) := GenerateUUIDHash "user" w2 in
              let '(err2, w4) := repo.Create uuid email hashedPassword w3 in
              (Returned (match err2 with
                         | Some e => Some (fmt.Errorf_w "error creating user: " e)
                         | None => None
                         end),
               mkstate w4 (t0 ++ [(userRepo_Create uuid email hashedPassword, err2)]))
          end
      end.
Proof.
  open_state s. unfold SignUp.
  destruct (repo.ByEmail (UserSignup.Email signup) w0) as [[user err0] w1] eqn:H0.
  rewrite (bind_run _ _ _ _ _ (ByEmail_run _ (mkstate w0 tr) _ _ _ H0)).
  cbn [outside trace]. cbv zeta.
  destruct (lookup_result user err0) as [user' err'].
  destruct (match err' with
            | Some e => negb (errors.Is e ErrUserNotFound)
            | None => false
            end); [reflexivity|].
  destruct user' as [u|]; [reflexivity|]. unfold_calls.
  destruct (GenerateFromPassword (UserSignup.Password signup) bcrypt.DefaultCost w1)
    as [[hashedPassword err1] w2] eqn:H1.
  step H1. destruct err1 as [e|]; [reflexivity|].
  destruct (GenerateUUIDHash "user" w2) as [uuid w3] eqn:H2. step H2.
  destruct (repo.Create uuid (UserSignup.Email signup) hashedPassword w3)
    as [err2 w4] eqn:H3.
  step H3. destruct err2; reflexivity.
Qed.

Lemma Logout_run token claims (s : state W) :
  Logout token (Some claims) s =
    let userID := JWTCustomClaims.UserID claims in
    let expiresAt := JWTCustomClaims.ExpiresAt claims in
    let '(err0, w1) := BlacklistToken token userID expiresAt (outside s) in
    let t0 := trace s ++ [(authService_BlacklistToken token userID expiresAt, err0)] in
    match err0 with
    | Some e => (Returned (Some e), mkstate w1 t0)
    | None =>
        let '(err1, w2) := DeleteRefreshToken userID w1 in
        (Returned err1, mkstate w2 (t0 ++ [(authService_DeleteRefreshToken userID, err1)]))
    end.
Proof.
  open_state s. unfold Logout. step_deref. unfold_calls. cbv zeta.
  destruct (BlacklistToken token (JWTCustomClaims.UserID claims)
              (JWTCustomClaims.ExpiresAt claims) w0) as [err0 w1] eqn:H0.
  step H0. destruct err0 as [e|]; [reflexivity|].
  destruct (DeleteRefreshToken (JWTCustomClaims.UserID claims) w1)
    as [err1 w2] eqn:H1.
  step H1. reflexivity.
Qed.

Lemma RefreshToken_run jwtToken user refreshToken expiresAt (s : state W) :
  RefreshToken jwtToken (Some user) refreshToken expiresAt s =
    let userID := User.ID user in
    let '((rt, err0), w1) := ByRefreshToken userID refreshToken (outside s) in
    let t0 := trace s ++ [(authService_ByRefreshToken userID refreshToken, err0)] in
    match err0 with
    | Some e => (Returned (None, Some e), mkstate w1 t0)
    | None =>
        match rt with
        | None => (Panicked, mkstate w1 t0)
        | Some rt =>
            let '(now, w2) := Now w1 in
            if time.Before (RefreshToken.ExpiresAt rt) now
            then
              let '(err, w3) := DeleteRefreshToken userID w2 in
              (Returned (None, Some (match err with
                                     | Some e => e
                                     | None => ErrUnauthorized
                                     end)),
               mkstate w3 (t0 ++ [(authService_DeleteRefreshToken userID, err)]))
            else
              let '((newJwtToken, err1), w3) := GenerateToken user w2 in
              let t1 := t0 ++ [(authService_GenerateToken user, err1)] in
              match err1 with
              | Some e => (Returned (None, Some e), mkstate w3 t1)
              | None =>
                  let '((newRefreshToken, err2), w4) :=
                    GenerateRefreshToken userID w3 in
                  let t2 := t1 ++ [(authService_GenerateRefreshToken userID, err2)] in
                  match err2 with
                  | Some e => (Returned (None, Some e), mkstate w4 t2)
                  | None =>
                      let '(err3, w5) :=
                        BlacklistToken jwtToken userID expiresAt w4 in
                      (Returned
                         (match err3 with
                          | Some e => (None, Some e)
                          | None =>
                              (Some (JWTResponse.mk newJwtToken newRefreshToken),
                               None)
                          end),
                       mkstate w5
                         (t2 ++ [(authService_BlacklistToken jwtToken userID
                                    expiresAt, err3)]))
                  end
              end
        end
    end.
Proof.
  open_state s. unfold RefreshToken. step_deref. unfold_calls. cbv zeta.
  destruct (ByRefreshToken (User.ID user) refreshToken w0)
    as [[rt err0] w1] eqn:H0.
  step H0. destruct err0 as [e|]; [reflexivity|].
  destruct rt as [rt|]; [step_deref|reflexivity].
  destruct (Now w1) as [now w2] eqn:H1. step H1.
  destruct (time.Before (RefreshToken.ExpiresAt rt) now).
  - destruct (DeleteRefreshToken (User.ID user) w2) as [err w3] eqn:H2.
    step H2. destruct err; reflexivity.
  - destruct (GenerateToken user w2) as [[newJwtToken err1] w3] eqn:H2.
    step H2. destruct err1 as [e|]; [reflexivity|].
    destruct (GenerateRefreshToken (User.ID user) w3)
      as [[newRefreshToken err2] w4] eqn:H3.
    step H3. destruct err2 as [e|]; [reflexivity|].
    destruct (BlacklistToken jwtToken (User.ID user) expiresAt w4)
      as [err3 w5] eqn:H4.
    step H4. destruct err3; reflexivity.
Qed.

(** *** Nil inputs *)

(** C9. Login called with nil credentials returns an error that wraps
    ErrNoCredentialsProvided, with a nil response, and SignUp called with nil
    sign-up details returns an error; in both cases the state is the one the
    call started from: no collaborator has been called, so no token was
    issued and no user was created. *)
Theorem nil_input_rejected (s : state W) :
  Login None s = (Returned (None, Some no_credentials), s) /\
  errors.Is no_credentials ErrNoCredentialsProvided = true /\
  SignUp None s =
    (Returned (Some (fmt.Errorf "no user sign up details provided")), s).
Proof. repeat split. Qed.

(** *** Sign-up with a registered email *)

(** C6. When the lookup by email finds a user, SignUp returns
    ErrUserAlreadyExists; the lookup is the only call made on a collaborator
    (the repository's Create is not called), and the world is left as the
    lookup left it. *)
Theorem SignUp_existing_email signup (s : state W) user w1 :
  repo.ByEmail (UserSignup.Email signup) (outside s) = ((Some user, None), w1) ->
  SignUp (Some signup) s =
    (Returned (Some ErrUserAlreadyExists),
     mkstate w1 (trace s ++ [(userRepo_ByEmail (UserSignup.Email signup), None)])).
Proof. intros H. rewrite SignUp_run. cbv zeta. rewrite H. reflexivity. Qed.

(** *** The two steps of Logout *)

(** C5, as amended. For every Logout call with claims, whatever instant the
    token expires at, the add to the revocation store is made first.  When it
    fails, Logout returns its error and the delete of the refresh record is
    not made; when it succeeds, the delete is made and Logout returns what
    the delete returned. *)
Theorem Logout_steps token claims (s : state W) err0 w1 :
  let userID := JWTCustomClaims.UserID claims in
  let expiresAt := JWTCustomClaims.ExpiresAt claims in
  let add := (authService_BlacklistToken token userID expiresAt, err0) in
  BlacklistToken token userID expiresAt (outside s) = (err0, w1) ->
  match err0 with
  | Some e =>
      Logout token (Some claims) s = (Returned (Some e), mkstate w1 (trace s ++ [add]))
  | None =>
      let '(err1, w2) := DeleteRefreshToken userID w1 in
      Logout token (Some claims) s =
        (Returned err1,
         mkstate w2 ((trace s ++ [add]) ++
                     [(authService_DeleteRefreshToken userID, err1)]))
  end.
Proof.
  intros userID expiresAt add H. rewrite Logout_run. cbv zeta.
  fold userID expiresAt. rewrite H.
  destruct err0; [reflexivity|].
  destruct (DeleteRefreshToken userID w1); reflexivity.
Qed.

(** *** The errors of a failed login *)

(** C1, as amended. A login with an email the repository has no row for
    returns the error [user_not_found], which wraps ErrUserNotFound; a login
    with a password that does not match the stored hash returns
    [invalid_credentials], which wraps ErrInvalidCredentials.  Neither issues
    a token, both errors are in the unauthorized class, and both wrapped
    errors are members of the ErrUnauthorized join; but the two errors are
    not the same, and the caller can tell them apart by [errors.Is] and by
    their text. *)
Theorem Login_failure_errors creds (s : state W) :
  (forall user e w,
      repo.ByEmailWithPassword (UserCredentials.Email creds) (outside s)
        = ((user, Some e), w) ->
      errors.Is e sql.ErrNoRows = true ->
      Login (Some creds) s =
        (Returned (None, Some user_not_found),
         mkstate w (trace s ++
           [(userRepo_ByEmailWithPassword (UserCredentials.Email creds), Some e)]))) /\
  (forall user e w,
      repo.ByEmailWithPassword (UserCredentials.Email creds) (outside s)
        = ((Some user, None), w) ->
      CompareHashAndPassword (User.Password user) (UserCredentials.Password creds)
        = Some e ->
      errors.Is e bcrypt.ErrMismatchedHashAndPassword = true ->
      Login (Some creds) s =
        (Returned (None, Some invalid_credentials),
         mkstate w (trace s ++
           [(userRepo_ByEmailWithPassword (UserCredentials.Email creds), None)]))) /\
  (unauthorized_class user_not_found = true /\
   unauthorized_class invalid_credentials = true /\
   errors.Is ErrUnauthorized ErrUserNotFound = true /\
   errors.Is ErrUnauthorized ErrInvalidCredentials = true) /\
  (errors.Is user_not_found ErrUserNotFound = true /\
   errors.Is invalid_credentials ErrUserNotFound = false /\
   errors.Is user_not_found ErrInvalidCredentials = false /\
   errors.Is invalid_credentials ErrInvalidCredentials = true /\
   errors.Error user_not_found <> errors.Error invalid_credentials).
Proof.
  split; [|split; [|split]].
  - intros user e w H He. rewrite (Login_lookup_failed _ _ _ _ _ H).
    unfold lookup_result. rewrite He. reflexivity.
  - intros user e w H Hc He. rewrite (Login_compare_failed _ _ _ _ _ H Hc).
    rewrite He. reflexivity.
  - repeat split.
  - repeat split. discriminate.
Qed.

(** *** Store failures *)

(** C8. When the repository fails with an error [e] that carries no
    credential error (a storage error), ByEmail, ByEmailWithPassword and
    Login return an error [r] such that: if [e] is not the no-rows error,
    [r] is [e] itself, handed up unchanged, and so outside the unauthorized
    class; and [r] is a user-not-found error only if [e] is the no-rows
    error. *)
Theorem store_failure_surfaces email (s : state W) user e w :
  unauthorized_class e = false ->
  let surfaces (r : error) :=
    (errors.Is e sql.ErrNoRows = false -> r = e /\ unauthorized_class r = false) /\
    (errors.Is r ErrUserNotFound = true -> errors.Is e sql.ErrNoRows = true) in
  (repo.ByEmail email (outside s) = ((user, Some e), w) ->
   exists r, fst (ByEmail email s) = Returned (None, Some r) /\ surfaces r) /\
  (repo.ByEmailWithPassword email (outside s) = ((user, Some e), w) ->
   exists r,
     fst (ByEmailWithPassword email s) = Returned (None, Some r) /\
     (forall password,
         fst (Login (Some (UserCredentials.mk email password)) s)
           = Returned (None, Some r)) /\
     surfaces r).
Proof.
  intros Hclass surfaces.
  assert (Hs : surfaces (if errors.Is e sql.ErrNoRows then user_not_found else e)).
  { unfold surfaces. destruct (errors.Is e sql.ErrNoRows) eqn:He.
    - split; [discriminate | reflexivity].
    - split; [intros _; split; [reflexivity | exact Hclass] |].
      intros Hr. unfold unauthorized_class in Hclass.
      apply orb_false_elim in Hclass. destruct Hclass as [_ Hnf]. congruence. }
  split; intros H.
  - exists (if errors.Is e sql.ErrNoRows then user_not_found else e).
    split; [|exact Hs].
    rewrite (ByEmail_run _ _ _ _ _ H). unfold lookup_result. cbn.
    destruct (errors.Is e sql.ErrNoRows); reflexivity.
  - exists (if errors.Is e sql.ErrNoRows then user_not_found else e).
    split; [|split; [|exact Hs]].
    + rewrite (ByEmailWithPassword_run _ _ _ _ _ H). unfold lookup_result. cbn.
      destruct (errors.Is e sql.ErrNoRows); reflexivity.
    + intros password.
      rewrite (Login_lookup_failed (UserCredentials.mk email password) _ _ _ _ H).
      unfold lookup_result. cbn.
      destruct (errors.Is e sql.ErrNoRows); reflexivity.
Qed.

(** *** Where ErrUnauthorized comes from *)

Lemma lookup_result_keeps user err :
  not_ErrUnauthorized err -> not_ErrUnauthorized (snd (lookup_result user err)).
Proof.
  intros H r. unfold lookup_result.
  destruct err as [e|]; [|discriminate].
  destruct (errors.Is e sql.ErrNoRows); cbn; intros [= <-]; [reflexivity|].
  apply H. reflexivity.
Qed.

(** C10. ErrUnauthorized is the join of ErrInvalidCredentials,
    ErrNoCredentialsProvided and ErrUserNotFound: [errors.Is] of the join
    against each of the three holds, and [errors.Is] of each of them, and of
    each error Login and the lookups build from them, against the join does
    not.  When no collaborator hands ErrUnauthorized itself back, no call of
    ByEmail, ByEmailWithPassword, SignUp, Login or Logout returns it, and
    RefreshToken returns it only on the path where the stored record has
    expired and has been deleted. *)
Theorem ErrUnauthorized_join :
  collaborators_keep_ErrUnauthorized userRepo authService runtime ->
  Forall (fun e => errors.Is ErrUnauthorized e = true)
    [ErrInvalidCredentials; ErrNoCredentialsProvided; ErrUserNotFound] /\
  Forall (fun e => errors.Is e ErrUnauthorized = false)
    [ErrInvalidCredentials; ErrNoCredentialsProvided; ErrUserNotFound;
     invalid_credentials; no_credentials; user_not_found] /\
  (forall email (s : state W) r e,
      fst (ByEmail email s) = Returned (r, Some e) ->
      errors.same e ErrUnauthorized = false) /\
  (forall email (s : state W) r e,
      fst (ByEmailWithPassword email s) = Returned (r, Some e) ->
      errors.same e ErrUnauthorized = false) /\
  (forall signup (s : state W) e,
      fst (SignUp signup s) = Returned (Some e) ->
      errors.same e ErrUnauthorized = false) /\
  (forall creds (s : state W) r e,
      fst (Login creds s) = Returned (r, Some e) ->
      errors.same e ErrUnauthorized = false) /\
  (forall token claims (s : state W) e,
      fst (Logout token claims s) = Returned (Some e) ->
      errors.same e ErrUnauthorized = false) /\
  (forall jwtToken user refreshToken expiresAt (s : state W) r e,
      fst (RefreshToken jwtToken user refreshToken expiresAt s)
        = Returned (r, Some e) ->
      errors.same e ErrUnauthorized = true ->
      exists u rt w1,
        user = Some u /\
        ByRefreshToken (User.ID u) refreshToken (outside s) = ((Some rt, None), w1) /\
        time.Before (RefreshToken.ExpiresAt rt) (fst (Now w1)) = true /\
        fst (DeleteRefreshToken (User.ID u) (snd (Now w1))) = None /\
        e = ErrUnauthorized /\ r = None).
Proof.
  intros (HbE & HbEP & HCr & HGT & HGR & HBl & HDel & HByR & HGP & HCmp).
  split; [repeat constructor|]. split; [repeat constructor|].
  split; [|split; [|split; [|split; [|split]]]].
  - intros email s r e.
    destruct (repo.ByEmail email (outside s)) as [[user err] w] eqn:H.
    rewrite (ByEmail_run _ _ _ _ _ H). cbn [fst]. intros [= Hr].
    apply (lookup_result_keeps user err).
    + specialize (HbE email (outside s)). rewrite H in HbE. exact HbE.
    + rewrite Hr. reflexivity.
  - intros email s r e.
    destruct (repo.ByEmailWithPassword email (outside s)) as [[user err] w] eqn:H.
    rewrite (ByEmailWithPassword_run _ _ _ _ _ H). cbn [fst]. intros [= Hr].
    apply (lookup_result_keeps user err).
    + specialize (HbEP email (outside s)). rewrite H in HbEP. exact HbEP.
    + rewrite Hr. reflexivity.
  - intros [signup|] s e; [|cbn; intros [= <-]; reflexivity].
    rewrite SignUp_run. cbv zeta.
    destruct (repo.ByEmail (UserSignup.Email signup) (outside s))
      as [[user err0] w1] eqn:H0.
    pose proof (lookup_result_keeps user err0) as Hk.
    specialize (HbE (UserSignup.Email signup) (outside s)). rewrite H0 in HbE.
    specialize (Hk HbE).
    destruct (lookup_result user err0) as [user' err']. cbn [snd] in Hk.
    destruct (match err' with
              | Some e0 => negb (errors.Is e0 ErrUserNotFound)
              | None => false
              end).
    { cbn [fst]. intros [= ->]. apply Hk. reflexivity. }
    destruct user' as [u|]; [cbn; intros [= <-]; reflexivity|].
    destruct (GenerateFromPassword (UserSignup.Password signup) bcrypt.DefaultCost w1)
      as [[hashedPassword err1] w2] eqn:H1.
    specialize (HGP (UserSignup.Password signup) bcrypt.DefaultCost w1).
    rewrite H1 in HGP.
    destruct err1 as [e1|]; [cbn [fst]; intros [= <-]; apply HGP; reflexivity|].
    destruct (GenerateUUIDHash "user" w2) as [uuid w3].
    destruct (repo.Create uuid (UserSignup.Email signup) hashedPassword w3)
      as [[e2|] w4]; cbn [fst]; intros [= <-]. reflexivity.
  - intros [creds|] s r e; [|cbn; intros [= <- <-]; reflexivity].
    destruct (repo.ByEmailWithPassword (UserCredentials.Email creds) (outside s))
      as [[user err] w] eqn:H.
    specialize (HbEP (UserCredentials.Email creds) (outside s)). rewrite H in HbEP.
    destruct err as [e0|].
    { rewrite (Login_lookup_failed _ _ _ _ _ H). cbn [fst]. intros [= _ Hr].
      apply (lookup_result_keeps user (Some e0) HbEP). exact Hr. }
    destruct user as [user|].
    2:{ unfold Login.
        rewrite (bind_run _ _ _ _ _ (ByEmailWithPassword_run _ _ _ _ _ H)).
        cbn. discriminate. }
    destruct (CompareHashAndPassword (User.Password user)
                (UserCredentials.Password creds)) as [e0|] eqn:Hc.
    { rewrite (Login_compare_failed _ _ _ _ _ H Hc). cbn [fst]. intros [= _ <-].
      destruct (errors.Is e0 bcrypt.ErrMismatchedHashAndPassword); [reflexivity|].
      apply (HCmp _ _ _ Hc). }
    rewrite (Login_run _ _ _ _ H Hc). cbv zeta.
    destruct (GenerateToken user w) as [[token err1] w1] eqn:H1.
    specialize (HGT user w). rewrite H1 in HGT.
    destruct err1 as [e1|]; [cbn [fst]; intros [= _ <-]; apply HGT; reflexivity|].
    destruct (GenerateRefreshToken (User.ID user) w1) as [[refreshToken err2] w2] eqn:H2.
    specialize (HGR (User.ID user) w1). rewrite H2 in HGR.
    destruct err2 as [e2|]; cbn [fst]; intros [= _ <-]. apply HGR; reflexivity.
  - intros token [claims|] s e; [|cbn; discriminate].
    rewrite Logout_run. cbv zeta.
    destruct (BlacklistToken token (JWTCustomClaims.UserID claims)
                (JWTCustomClaims.ExpiresAt claims) (outside s)) as [err0 w1] eqn:H0.
    specialize (HBl token (JWTCustomClaims.UserID claims)
                    (JWTCustomClaims.ExpiresAt claims) (outside s)).
    rewrite H0 in HBl.
    destruct err0 as [e0|]; [cbn [fst]; intros [= <-]; apply HBl; reflexivity|].
    destruct (DeleteRefreshToken (JWTCustomClaims.UserID claims) w1)
      as [err1 w2] eqn:H1.
    specialize (HDel (JWTCustomClaims.UserID claims) w1). rewrite H1 in HDel.
    cbn [fst]. intros [= ->]. apply HDel; reflexivity.
  - intros jwtToken [user|] refreshToken expiresAt s r e; [|cbn; discriminate].
    rewrite RefreshToken_run. cbv zeta.
    destruct (ByRefreshToken (User.ID user) refreshToken (outside s))
      as [[rt err0] w1] eqn:H0.
    specialize (HByR (User.ID user) refreshToken (outside s)). rewrite H0 in HByR.
    destruct err0 as [e0|].
    { cbn [fst]. intros [= _ <-] Hs. rewrite (HByR e0 eq_refl) in Hs. discriminate. }
    destruct rt as [rt|]; [|cbn; discriminate].
    destruct (Now w1) as [now w2] eqn:HN.
    destruct (time.Before (RefreshToken.ExpiresAt rt) now) eqn:HB.
    + destruct (DeleteRefreshToken (User.ID user) w2) as [err w3] eqn:H2.
      specialize (HDel (User.ID user) w2). rewrite H2 in HDel.
      destruct err as [e1|]; cbn [fst]; intros [= <- <-] Hs.
      { rewrite (HDel e1 eq_refl) in Hs. discriminate. }
      exists user, rt, w1. rewrite HN. cbn [fst snd]. rewrite H2.
      repeat split; assumption.
    + destruct (GenerateToken user w2) as [[newJwtToken err1] w3] eqn:H2.
      specialize (HGT user w2). rewrite H2 in HGT.
      destruct err1 as [e1|].
      { cbn [fst]. intros [= _ <-] Hs. rewrite (HGT e1 eq_refl) in Hs. discriminate. }
      destruct (GenerateRefreshToken (User.ID user) w3)
        as [[newRefreshToken err2] w4] eqn:H3.
      specialize (HGR (User.ID user) w3). rewrite H3 in HGR.
      destruct err2 as [e2|].
      { cbn [fst]. intros [= _ <-] Hs. rewrite (HGR e2 eq_refl) in Hs. discriminate. }
      destruct (BlacklistToken jwtToken (User.ID user) expiresAt w4)
        as [err3 w5] eqn:H4.
      specialize (HBl jwtToken (User.ID user) expiresAt w4). rewrite H4 in HBl.
      destruct err3 as [e3|]; cbn [fst]; intros [= _ <-] Hs.
      rewrite (HBl e3 eq_refl) in Hs. discriminate.
Qed.

End Generic.

(** ** The service over the stores of the design *)

Section Design.

Import design.

Lemma design_keeps_ErrUnauthorized :
  collaborators_keep_ErrUnauthorized design.userRepo design.authService design.runtime.
Proof.
  unfold collaborators_keep_ErrUnauthorized, not_ErrUnauthorized.
  repeat split; cbn; unfold bcrypt_CompareHashAndPassword; intros.
  all: repeat match goal with
         | H : context [match ?x with _ => _ end] |- _ =>
             destruct x; cbn in H
         end.
  all: try discriminate.
  all: match goal with H : Some _ = Some _ |- _ => injection H as <- end.
  all: try reflexivity.
  all: match goal with f : fault |- _ => destruct f; reflexivity end.
Qed.

Lemma fault_at_0 (w : world) : hd None (faults w) = fault_at 0 w.
Proof. unfold fault_at. destruct (faults w); reflexivity. Qed.

Lemma fault_at_1 (w : world) : hd None (tl (faults w)) = fault_at 1 w.
Proof. unfold fault_at. destruct (faults w) as [|? [|? ?]]; reflexivity. Qed.

Lemma fault_at_2 (w : world) : hd None (tl (tl (faults w))) = fault_at 2 w.
Proof. unfold fault_at. destruct (faults w) as [|? [|? [|? ?]]]; reflexivity. Qed.

Lemma fault_at_3 (w : world) : hd None (tl (tl (tl (faults w)))) = fault_at 3 w.
Proof.
  unfold fault_at. destruct (faults w) as [|? [|? [|? [|? ?]]]]; reflexivity.
Qed.

(** The next collaborator call of the body is carried out on the stores. *)
Ltac on_stores :=
  cbn [outside trace fst snd ByRefreshToken DeleteRefreshToken GenerateToken
       GenerateRefreshToken BlacklistToken Now authService runtime];
  unfold auth_ByRefreshToken, auth_DeleteRefreshToken, auth_GenerateToken,
    auth_GenerateRefreshToken, auth_BlacklistToken, time_Now, next_fault, draw, Put;
  cbn [users refresh_tokens revoked clock random drawn refresh_ttl faults pop
       set_faults set_drawn set_refresh_tokens set_revoked];
  rewrite ?fault_at_3, ?fault_at_2, ?fault_at_1, ?fault_at_0.

(** *** An expired refresh token *)

(** C4, as amended. When the lookup completes and returns the stored record
    of the user, and that record expired before the current instant,
    RefreshToken makes exactly two calls, the lookup and the delete of the
    record, so no access token and no refresh token is issued, and the
    response is nil.  When the delete completes, the record is gone and the
    error is ErrUnauthorized; when the delete fails, the record is still
    there and the error is the one of the delete. *)
Theorem RefreshToken_expired (w : world) jwtToken user refreshToken expiresAt rt :
  fault_at 0 w = None ->
  refresh_tokens w !! User.ID user = Some rt ->
  RefreshToken.Token rt = refreshToken ->
  time.Before (RefreshToken.ExpiresAt rt) (clock w) = true ->
  let r := run (RefreshToken jwtToken (Some user) refreshToken expiresAt) w in
  let del := fault_at 1 w in
  fst r = Returned (None, Some (match del with
                                | Some f => store_error f
                                | None => ErrUnauthorized
                                end)) /\
  trace (snd r) =
    [(authService_ByRefreshToken (User.ID user) refreshToken, None);
     (authService_DeleteRefreshToken (User.ID user), store_error <$> del)] /\
  refresh_tokens (outside (snd r)) !! User.ID user
    = match del with Some _ => Some rt | None => None end /\
  revoked (outside (snd r)) = revoked w.
Proof.
  intros F0 Hrt Htok Hexp r del. subst r del.
  unfold run. rewrite RefreshToken_run. cbv zeta.
  on_stores. rewrite F0, Hrt.
  on_stores. rewrite Hexp.
  on_stores. destruct (fault_at 1 w) as [f|]; cbn.
  - repeat split. exact Hrt.
  - repeat split. apply lookup_delete_eq.
Qed.

(** *** The outcomes of a refresh *)

(** C2, as amended. Every RefreshToken call for a user ends in one of these
    ways, told by the last call it made on the auth service.  The lookup,
    the generation of the access token or the generation of the refresh
    token failed: that error is returned, and both stores are as they were.
    The record had expired: see C4; the revocation store is as it was.  The
    add to the revocation store failed: that error is returned, and the
    refresh record written by the step before it remains, with the new
    value, so the old value is no longer the stored one.  The add succeeded:
    both tokens are returned, the refresh record holds the new value and the
    old access token is in the revocation store. *)
Theorem RefreshToken_outcomes (w : world) jwtToken user refreshToken expiresAt :
  let userID := User.ID user in
  let r := run (RefreshToken jwtToken (Some user) refreshToken expiresAt) w in
  let w' := outside (snd r) in
  let replaced (value : string) :=
    <[userID := RefreshToken.mk userID value (clock w + refresh_ttl w)%Z]>
      (refresh_tokens w) in
  match last_call (trace (snd r)) with
  | Some (authService_ByRefreshToken _ _, Some e)
  | Some (authService_GenerateToken _, Some e)
  | Some (authService_GenerateRefreshToken _, Some e)
  | Some (authService_DeleteRefreshToken _, Some e) =>
      fst r = Returned (None, Some e) /\
      refresh_tokens w' = refresh_tokens w /\ revoked w' = revoked w
  | Some (authService_DeleteRefreshToken _, None) =>
      fst r = Returned (None, Some ErrUnauthorized) /\
      refresh_tokens w' = delete userID (refresh_tokens w) /\
      revoked w' = revoked w
  | Some (authService_BlacklistToken _ _ _, Some e) =>
      fst r = Returned (None, Some e) /\
      refresh_tokens w' = replaced (random w (S (drawn w))) /\
      revoked w' = revoked w
  | Some (authService_BlacklistToken _ _ _, None) =>
      fst r = Returned (Some (JWTResponse.mk (random w (drawn w))
                                             (random w (S (drawn w)))), None) /\
      refresh_tokens w' = replaced (random w (S (drawn w))) /\
      revoked w' = <[jwtToken := (userID, expiresAt)]> (revoked w)
  | _ => False
  end.
Proof.
  intros userID r w' replaced. subst r w' replaced userID.
  unfold run. rewrite RefreshToken_run. cbv zeta.
  on_stores. destruct (fault_at 0 w) as [f0|]; [cbn; repeat split|].
  destruct (refresh_tokens w !! User.ID user) as [rt|]; [|cbn; repeat split].
  on_stores.
  destruct (time.Before (RefreshToken.ExpiresAt rt) (clock w)).
  { on_stores. destruct (fault_at 1 w) as [f1|]; cbn; repeat split. }
  on_stores. destruct (fault_at 1 w) as [f1|]; [cbn; repeat split|].
  on_stores. destruct (fault_at 2 w) as [f2|]; [cbn; repeat split|].
  on_stores. destruct (fault_at 3 w) as [f3|]; cbn; repeat split.
Qed.

(** *** Rotation *)


(** *** The time-to-live of access tokens *)

(** C3, as amended. The time-to-live of access tokens is one constant,
    JWTExpiration, of 72 hours: three days, which is not less than 24
    hours. *)
Theorem JWTExpiration_value :
  JWTExpiration = (72 * time.Hour)%Z /\
  JWTExpiration = (3 * (24 * time.Hour))%Z /\
  JWTExpiration = 259200000000000%Z /\
  (24 * time.Hour <= JWTExpiration)%Z.
Proof. repeat split. discriminate. Qed.

End Design.

(** ** Runs of the scenario *)

Section Runs.

Import design scenario.
Local Open Scope Z_scope.

(** *** Sign-up *)

Lemma SignUp_existing_email_witness :
  SignUp (Some (UserSignup.mk "a@x.com" "hunter2")) (mkstate w0 []) =
    (Returned (Some ErrUserAlreadyExists),
     mkstate (pop w0) [(userRepo_ByEmail "a@x.com", None)]) /\
  users (pop w0) = [alice].
Proof.
  split; [|reflexivity].
  apply (SignUp_existing_email (UserSignup.mk "a@x.com" "hunter2") (mkstate w0 [])
           (User.mk 1 "user-7f3a" "a@x.com" "") (pop w0)).
  reflexivity.
Defined.

(** On the stores of the design, a sign-up with a registered email leaves
    the account table as it was. *)
Lemma SignUp_existing_email_table (w : world) signup u :
  fault_at 0 w = None ->
  find_user (UserSignup.Email signup) (users w) = Some u ->
  fst (run (SignUp (Some signup)) w) = Returned (Some ErrUserAlreadyExists) /\
  users (outside (snd (run (SignUp (Some signup)) w))) = users w.
Proof.
  intros F0 Hu. unfold run. rewrite SignUp_run. cbv zeta.
  cbn [outside trace repo.ByEmail userRepo]. unfold repo_ByEmail, next_fault.
  rewrite fault_at_0, F0. cbn [users pop set_faults]. rewrite Hu.
  split; reflexivity.
Qed.

(** *** Login *)

(** C1 fails as stated: one login fails on the email, another on the
    password, and [errors.Is] against ErrUserNotFound, like the text of the
    error, tells the caller which. *)
Lemma Login_errors_tell_causes_apart :
  find_user "nobody@x.com" (users w0) = None /\
  find_user "a@x.com" (users w0) = Some alice /\
  CompareHashAndPassword (User.Password alice) "wrong"
    = Some bcrypt.ErrMismatchedHashAndPassword /\
  exists e1 e2,
    fst (run (Login (Some (UserCredentials.mk "nobody@x.com" "secret123"))) w0)
      = Returned (None, Some e1) /\
    fst (run (Login (Some (UserCredentials.mk "a@x.com" "wrong"))) w0)
      = Returned (None, Some e2) /\
    errors.Is e1 ErrUserNotFound = true /\
    errors.Is e2 ErrUserNotFound = false /\
    errors.Error e1 <> errors.Error e2.
Proof.
  repeat split.
  exists user_not_found, invalid_credentials.
  repeat split. discriminate.
Qed.

Lemma Login_failure_errors_witness :
  Login (Some (UserCredentials.mk "nobody@x.com" "secret123")) (mkstate w0 []) =
    (Returned (None, Some user_not_found),
     mkstate (pop w0)
       [(userRepo_ByEmailWithPassword "nobody@x.com", Some sql.ErrNoRows)]) /\
  Login (Some (UserCredentials.mk "a@x.com" "wrong")) (mkstate w0 []) =
    (Returned (None, Some invalid_credentials),
     mkstate (pop w0) [(userRepo_ByEmailWithPassword "a@x.com", None)]).
Proof.
  split.
  - apply (proj1 (Login_failure_errors
                    (UserCredentials.mk "nobody@x.com" "secret123")
                    (mkstate w0 [])) None sql.ErrNoRows (pop w0));
      reflexivity.
  - apply (proj1 (proj2 (Login_failure_errors
                           (UserCredentials.mk "a@x.com" "wrong")
                           (mkstate w0 [])))
             alice bcrypt.ErrMismatchedHashAndPassword (pop w0));
      reflexivity.
Defined.

(** *** Store failures *)

Lemma store_failure_surfaces_witness :
  exists r,
    fst (ByEmailWithPassword "a@x.com" (mkstate (set_faults [Some Timeout] w0) []))
      = Returned (None, Some r) /\
    fst (Login (Some (UserCredentials.mk "a@x.com" "secret123"))
               (mkstate (set_faults [Some Timeout] w0) []))
      = Returned (None, Some r) /\
    r = context.DeadlineExceeded /\
    unauthorized_class r = false.
Proof.
  destruct (store_failure_surfaces "a@x.com"
              (mkstate (set_faults [Some Timeout] w0) []) None
              context.DeadlineExceeded (pop (set_faults [Some Timeout] w0))
              eq_refl) as [_ H].
  destruct (H eq_refl) as (r & Hr & HL & Hs & _).
  exists r. split; [exact Hr|]. split; [apply HL|]. apply Hs. reflexivity.
Defined.

(** *** Logout *)

(** C5 fails as stated: the add to the revocation store times out; Logout
    returns the error, and the delete of the refresh record is not made. *)
Lemma Logout_add_fails_delete_not_made :
  let r := run (Logout "A0" (Some (JWTCustomClaims.mk 1 500)))
               (set_faults [Some Timeout] w0) in
  fst r = Returned (Some context.DeadlineExceeded) /\
  trace (snd r) =
    [(authService_BlacklistToken "A0" 1 500, Some context.DeadlineExceeded)] /\
  ~ In (authService_DeleteRefreshToken 1) (map fst (trace (snd r))) /\
  refresh_tokens (outside (snd r)) !! 1%N = Some R0.
Proof.
  cbv zeta. repeat split.
  cbn. intros [H|[]]. discriminate.
Qed.

Lemma Logout_steps_witness :
  Logout "A0" (Some (JWTCustomClaims.mk 1 500)) (mkstate w0 []) =
    (Returned None,
     mkstate (set_refresh_tokens (delete 1%N (refresh_tokens w0))
                (pop (set_revoked (<[ "A0" := (1%N, 500%Z) ]> (revoked w0)) (pop w0))))
       [(authService_BlacklistToken "A0" 1 500, None);
        (authService_DeleteRefreshToken 1, None)]).
Proof.
  exact (Logout_steps "A0" (JWTCustomClaims.mk 1 500) (mkstate w0 []) None
           (set_revoked (<[ "A0" := (1%N, 500%Z) ]> (revoked w0)) (pop w0))
           eq_refl).
Defined.

(** *** Refresh *)

(** C4 fails as stated: the stored record has expired, the delete times out;
    the error returned is the one of the delete, which is not in the
    unauthorized class, and the record is still stored. *)
Lemma RefreshToken_expired_delete_fails :
  let w := set_faults [None; Some Timeout] w_late in
  let r := run (RefreshToken "A0" (Some alice) "v0" 500) w in
  refresh_tokens w !! 1%N = Some R0 /\
  time.Before (RefreshToken.ExpiresAt R0) (clock w) = true /\
  fst r = Returned (None, Some context.DeadlineExceeded) /\
  unauthorized_class context.DeadlineExceeded = false /\
  refresh_tokens (outside (snd r)) !! 1%N = Some R0.
Proof. cbv zeta. repeat split. Qed.

Lemma RefreshToken_expired_witness :
  let r := run (RefreshToken "A0" (Some alice) "v0" 500) w_late in
  fst r = Returned (None, Some ErrUnauthorized) /\
  trace (snd r) =
    [(authService_ByRefreshToken 1 "v0", None);
     (authService_DeleteRefreshToken 1, None)] /\
  refresh_tokens (outside (snd r)) !! 1%N = None /\
  revoked (outside (snd r)) = revoked w_late.
Proof.
  apply (RefreshToken_expired w_late "A0" alice "v0" 500%Z R0); reflexivity.
Defined.

(** C2 fails as stated: the add to the revocation store times out after the
    new refresh record has been written; the call returns the error, and
    the record of the user is no longer the one it was: it holds the new
    value, which the caller was never given. *)
Lemma RefreshToken_not_atomic :
  let w := set_faults [None; None; None; Some Timeout] w0 in
  let r := run (RefreshToken "A0" (Some alice) "v0" 500) w in
  refresh_tokens w !! 1%N = Some R0 /\
  fst r = Returned (None, Some context.DeadlineExceeded) /\
  refresh_tokens (outside (snd r)) !! 1%N
    = Some (RefreshToken.mk 1 "v2" 5010) /\
  revoked (outside (snd r)) !! "A0" = None.
Proof. cbv zeta. repeat split. Qed.



(** *** ErrUnauthorized *)

Lemma ErrUnauthorized_join_witness :
  errors.Is ErrUnauthorized ErrUserNotFound = true /\
  errors.same invalid_credentials ErrUnauthorized = false.
Proof.
  destruct (ErrUnauthorized_join design_keeps_ErrUnauthorized)
    as (Hjoin & _ & _ & _ & _ & HLogin & _).
  split.
  - apply (proj1 (Forall_forall _ _) Hjoin). repeat constructor.
  - apply (HLogin (Some (UserCredentials.mk "a@x.com" "wrong")) (mkstate w0 []) None).
    reflexivity.
Defined.

(** *** The time-to-live of access tokens *)

(** C3 fails as stated: JWTExpiration is not less than 24 hours. *)
Lemma JWTExpiration_not_below_a_day : ~ (JWTExpiration < 24 * time.Hour)%Z.
Proof. intros H. vm_compute in H. discriminate. Qed.

(** *** The scenario of the design document, as the service runs it

    Login yields A1 and R1; a refresh with R1 yields A2 and R2 and revokes
    A1; a second refresh with R1 is accepted too (nothing compares the value
    presented) and yields A3 and R3; logout with A3 revokes A3 and deletes
    the record; a refresh is then refused, for want of a record. *)
Example design_scenario :
  let '(login, s1) :=
    run (Login (Some (UserCredentials.mk "a@x.com" "secret123"))) w0 in
  let w1 := outside s1 in
  let '(refresh, s2) := run (RefreshToken "v1" (Some alice) "v2" 500) w1 in
  let w2 := outside s2 in
  let '(again, s3) := run (RefreshToken "v1" (Some alice) "v2" 500) w2 in
  let '(logout, s4) :=
    run (Logout "v5" (Some (JWTCustomClaims.mk 1 600))) (outside s3) in
  let w4 := outside s4 in
  let '(after, _) := run (RefreshToken "v5" (Some alice) "v6" 600) w4 in
  login = Returned (Some (JWTResponse.mk "v1" "v2"), None) /\
  refresh = Returned (Some (JWTResponse.mk "v3" "v4"), None) /\
  Contains w2 "v1" 20 = true /\
  again = Returned (Some (JWTResponse.mk "v5" "v6"), None) /\
  logout = Returned None /\
  Contains w4 "v5" 20 = true /\
  refresh_tokens w4 !! 1%N = None /\
  after = Returned (None, Some sql.ErrNoRows).
Proof. vm_compute. repeat split. Qed.

End Runs.

(** * Further properties of the service *)

Section Paths.

Context {W : Type}.
Context {userRepo : repo.UserRepo W}.
Context {authService : AuthService W}.
Context {runtime : Runtime W}.

Lemma last_call_app (tr : list event) (ev : event) :
  last_call (tr ++ [ev]) = Some ev.
Proof. unfold last_call. rewrite rev_app_distr. reflexivity. Qed.

(** The body of Login, with its binds carried out. *)
Lemma Login_body creds (s : state W) :
  Login (Some creds) s =
    let email := UserCredentials.Email creds in
    let '((user, err0), w) := repo.ByEmailWithPassword email (outside s) in
    let t0 := trace s ++ [(userRepo_ByEmailWithPassword email, err0)] in
    match err0 with
    | Some e => (Returned (None, snd (lookup_result user (Some e))), mkstate w t0)
    | None =>
        match user with
        | None => (Panicked, mkstate w t0)
        | Some user =>
            match CompareHashAndPassword (User.Password user)
                    (UserCredentials.Password creds) with
            | Some e =>
                (Returned (None,
                           Some (if errors.Is e bcrypt.ErrMismatchedHashAndPassword
                                 then invalid_credentials else e)),
                 mkstate w t0)
            | None =>
                let '((token, err1), w1) := GenerateToken user w in
                let t1 := t0 ++ [(authService_GenerateToken user, err1)] in
                match err1 with
                | Some e => (Returned (None, Some e), mkstate w1 t1)
                | None =>
                    let '((refreshToken, err2), w2) :=
                      GenerateRefreshToken (User.ID user) w1 in
                    (Returned (match err2 with
                               | Some e => (None, Some e)
                               | None =>
                                   (Some (JWTResponse.mk token refreshToken), None)
                               end),
                     mkstate w2
                       (t1 ++ [(authService_GenerateRefreshToken (User.ID user),
                                err2)]))
                end
            end
        end
    end.
Proof.
  cbv zeta.
  destruct (repo.ByEmailWithPassword (UserCredentials.Email creds) (outside s))
    as [[user err0] w] eqn:H.
  destruct err0 as [e|]; [exact (Login_lookup_failed _ _ _ _ _ H)|].
  destruct user as [user|].
  2:{ unfold Login.
      rewrite (bind_run _ _ _ _ _ (ByEmailWithPassword_run _ _ _ _ _ H)).
      reflexivity. }
  destruct (CompareHashAndPassword (User.Password user)
              (UserCredentials.Password creds)) as [e|] eqn:Hc.
  - exact (Login_compare_failed _ _ _ _ _ H Hc).
  - rewrite (Login_run _ _ _ _ H Hc). cbv zeta.
    destruct (GenerateToken user w) as [[token err1] w1].
    destruct err1; [reflexivity|].
    destruct (GenerateRefreshToken (User.ID user) w1) as [[refreshToken err2] w2].
    reflexivity.
Qed.

(** Case analysis on the answers of the collaborators, in the order the
    body asks for them. *)
Ltac answers :=
  repeat match goal with
         | |- context [match ?x with _ => _ end] => destruct x eqn:?
         end.

(** *** What Login and RefreshToken hand back *)

(** X1. Whenever Login returns, it returns either a response and a nil
    error, or a nil response and an error: never both, never neither. *)
Theorem Login_response_xor_error creds (s : state W) :
  when_returned exclusive (fst (Login creds s)).
Proof.
  destruct creds as [creds|]; [|reflexivity].
  rewrite Login_body. cbv zeta. unfold lookup_result. answers; reflexivity.
Qed.

(** X2. Whenever RefreshToken returns, it returns either a response and a
    nil error, or a nil response and an error. *)
Theorem RefreshToken_response_xor_error jwtToken user refreshToken expiresAt
    (s : state W) :
  when_returned exclusive
    (fst (RefreshToken jwtToken user refreshToken expiresAt s)).
Proof.
  destruct user as [user|]; [|reflexivity].
  rewrite RefreshToken_run. cbv zeta. answers; reflexivity.
Qed.

(** *** The lookups *)

(** X3. ByEmail and ByEmailWithPassword always return, after exactly one
    call on the repository; they never return a user together with an error,
    even when the repository hands back both; and their error is nil exactly
    when the repository's is. *)
Theorem lookups_never_return_both email (s : state W) :
  (exists r s' err,
      ByEmail email s = (Returned r, s') /\
      trace s' = trace s ++ [(userRepo_ByEmail email, err)] /\
      not_both r = true /\ (snd r = None <-> err = None)) /\
  (exists r s' err,
      ByEmailWithPassword email s = (Returned r, s') /\
      trace s' = trace s ++ [(userRepo_ByEmailWithPassword email, err)] /\
      not_both r = true /\ (snd r = None <-> err = None)).
Proof.
  split.
  - destruct (repo.ByEmail email (outside s)) as [[user err] w] eqn:H.
    rewrite (ByEmail_run _ _ _ _ _ H).
    eexists _, _, err. split; [reflexivity|]. split; [reflexivity|].
    unfold lookup_result. destruct err as [e|].
    + destruct (errors.Is e sql.ErrNoRows); repeat split; discriminate.
    + destruct user; repeat split.
  - destruct (repo.ByEmailWithPassword email (outside s)) as [[user err] w] eqn:H.
    rewrite (ByEmailWithPassword_run _ _ _ _ _ H).
    eexists _, _, err. split; [reflexivity|]. split; [reflexivity|].
    unfold lookup_result. destruct err as [e|].
    + destruct (errors.Is e sql.ErrNoRows); repeat split; discriminate.
    + destruct user; repeat split.
Qed.

(** *** The paths of SignUp *)

Lemma no_user_result user err :
  no_user user err ->
  exists err',
    lookup_result user err = (None, err') /\
    match err' with
    | Some e => negb (errors.Is e ErrUserNotFound)
    | None => false
    end = false.
Proof.
  intros [[-> ->]|(e & -> & He)]; unfold lookup_result.
  - exists None. split; reflexivity.
  - rewrite He. exists (Some user_not_found). split; reflexivity.
Qed.

(** X4. When the repository has no user for the email, and hashing and the
    insert succeed, SignUp returns nil after two calls on the repository: the
    lookup, and one Create with the identifier GenerateUUIDHash gave for
    ["user"], the email of the sign-up, and the hash bcrypt gave for the
    password at the default cost. *)
Theorem SignUp_creates_with_hash signup (s : state W) user err0 w1
    hashedPassword w2 uuid w3 w4 :
  let email := UserSignup.Email signup in
  repo.ByEmail email (outside s) = ((user, err0), w1) ->
  no_user user err0 ->
  GenerateFromPassword (UserSignup.Password signup) bcrypt.DefaultCost w1
    = ((hashedPassword, None), w2) ->
  GenerateUUIDHash "user" w2 = (uuid, w3) ->
  repo.Create uuid email hashedPassword w3 = (None, w4) ->
  SignUp (Some signup) s =
    (Returned None,
     mkstate w4 (trace s ++ [(userRepo_ByEmail email, err0);
                             (userRepo_Create uuid email hashedPassword, None)])).
Proof.
  intros email H0 Habs H1 H2 H3. rewrite SignUp_run. cbv zeta.
  fold email. rewrite H0.
  destruct (no_user_result _ _ Habs) as (err' & -> & ->).
  rewrite H1, H2, H3, <- app_assoc. reflexivity.
Qed.

(** An error is the same pointer as itself, built during a call or not. *)
Lemma eqb_refl (e : error) : errors.eqb e e = true.
Proof.
  revert e. fix IH 1. intros [a t|a m e|a es]; cbn.
  - destruct a; cbn; rewrite ?String.eqb_refl; reflexivity.
  - rewrite IH. destruct a; cbn; rewrite ?String.eqb_refl; reflexivity.
  - assert (H : (fix all2 (l l' : list error) : bool :=
                   match l, l' with
                   | [], [] => true
                   | e :: r, f :: r' => errors.eqb e f && all2 r r'
                   | _, _ => false
                   end) es es = true).
    { induction es as [|x xs IHxs]; [reflexivity|]. rewrite IH, IHxs. reflexivity. }
    rewrite H. destruct a; cbn; rewrite ?String.eqb_refl; reflexivity.
Qed.

Lemma same_refl (e : error) : errors.same e e = true.
Proof.
  unfold errors.same. destruct (errors.addr_of e);
    [apply String.eqb_refl | apply eqb_refl].
Qed.

Lemma Is_refl (e : error) : errors.Is e e = true.
Proof. destruct e; cbn [errors.Is]; rewrite same_refl; reflexivity. Qed.

(** X5. When the insert fails, SignUp returns an error that wraps the one of
    Create: its text is that error's behind ["error creating user: "]; every
    target the error of Create matches, the returned error matches; and
    against a target held in a package-level variable [errors.Is] gives, for
    the returned error, what it gives for the error of Create.  (The
    returned error also matches itself, which the error of Create does
    not.) *)
Theorem SignUp_create_error_wrapped signup (s : state W) user err0 w1
    hashedPassword w2 uuid w3 e w4 :
  let email := UserSignup.Email signup in
  repo.ByEmail email (outside s) = ((user, err0), w1) ->
  no_user user err0 ->
  GenerateFromPassword (UserSignup.Password signup) bcrypt.DefaultCost w1
    = ((hashedPassword, None), w2) ->
  GenerateUUIDHash "user" w2 = (uuid, w3) ->
  repo.Create uuid email hashedPassword w3 = (Some e, w4) ->
  exists r,
    fst (SignUp (Some signup) s) = Returned (Some r) /\
    errors.Error r = "error creating user: " +:+ errors.Error e /\
    (forall target, errors.Is e target = true -> errors.Is r target = true) /\
    (forall target v,
        errors.addr_of target = errors.pkgvar v ->
        errors.Is r target = errors.Is e target) /\
    errors.Is r r = true.
Proof.
  intros email H0 Habs H1 H2 H3. rewrite SignUp_run. cbv zeta.
  fold email. rewrite H0.
  destruct (no_user_result _ _ Habs) as (err' & -> & ->).
  rewrite H1, H2, H3. eexists. split; [reflexivity|]. split; [reflexivity|].
  split; [|split].
  - intros target Ht. cbn [fmt.Errorf_w errors.Is]. rewrite Ht. apply orb_true_r.
  - intros target v Hv. cbn [fmt.Errorf_w errors.Is]. unfold errors.same.
    cbn [errors.addr_of]. rewrite Hv. reflexivity.
  - apply Is_refl.
Qed.

(** X6. When the lookup fails with an error that is neither the no-rows
    error nor a user-not-found error, SignUp returns that error as it is,
    whether or not the repository handed a user back with it, and makes no
    other call: nothing is hashed and nothing is created. *)
Theorem SignUp_lookup_failure signup (s : state W) user e w1 :
  let email := UserSignup.Email signup in
  repo.ByEmail email (outside s) = ((user, Some e), w1) ->
  errors.Is e sql.ErrNoRows = false ->
  errors.Is e ErrUserNotFound = false ->
  SignUp (Some signup) s =
    (Returned (Some e), mkstate w1 (trace s ++ [(userRepo_ByEmail email, Some e)])).
Proof.
  intros email H0 Hrows Hnf. rewrite SignUp_run. cbv zeta.
  fold email. rewrite H0. unfold lookup_result. rewrite Hrows, Hnf. reflexivity.
Qed.

(** X7. When bcrypt fails to hash the password, SignUp returns the error of
    bcrypt as it is, and Create is not called. *)
Theorem SignUp_hash_failure signup (s : state W) user err0 w1 hashedPassword e w2 :
  let email := UserSignup.Email signup in
  repo.ByEmail email (outside s) = ((user, err0), w1) ->
  no_user user err0 ->
  GenerateFromPassword (UserSignup.Password signup) bcrypt.DefaultCost w1
    = ((hashedPassword, Some e), w2) ->
  SignUp (Some signup) s =
    (Returned (Some e), mkstate w2 (trace s ++ [(userRepo_ByEmail email, err0)])).
Proof.
  intros email H0 Habs H1. rewrite SignUp_run. cbv zeta.
  fold email. rewrite H0.
  destruct (no_user_result _ _ Habs) as (err' & -> & ->).
  rewrite H1. reflexivity.
Qed.

(** X8. SignUp never panics, and it calls nothing but the repository: no
    call at all for nil details, else the lookup, followed by at most one
    Create.  It makes no call on the auth service. *)
Theorem SignUp_calls signup (s : state W) :
  exists err s' delta,
    SignUp signup s = (Returned err, s') /\
    trace s' = trace s ++ delta /\
    match map fst delta with
    | [] => signup = None
    | [userRepo_ByEmail _] => True
    | [userRepo_ByEmail _; userRepo_Create _ _ _] => True
    | _ => False
    end.
Proof.
  destruct signup as [signup|].
  2:{ eexists _, _, []. split; [reflexivity|]. split; [|reflexivity].
      symmetry. apply app_nil_r. }
  rewrite SignUp_run. cbv zeta. answers.
  all: eexists _, _, _; split; [reflexivity|]; cbn [trace];
    rewrite <- ?app_assoc; split; [reflexivity|exact I].
Qed.

(** *** The paths of Login *)

(** X9. Login returns a response exactly when the lookup found a user with
    no error, the comparison of the password with the stored hash returned
    nil, and both tokens were generated without error, the refresh token
    after the access token; the response carries these two tokens. *)
Theorem Login_success_iff creds (s : state W) resp :
  fst (Login (Some creds) s) = Returned (Some resp, None) <->
  exists user w1 w2 w3,
    repo.ByEmailWithPassword (UserCredentials.Email creds) (outside s)
      = ((Some user, None), w1) /\
    CompareHashAndPassword (User.Password user) (UserCredentials.Password creds)
      = None /\
    GenerateToken user w1 = ((JWTResponse.Token resp, None), w2) /\
    GenerateRefreshToken (User.ID user) w2
      = ((JWTResponse.RefreshToken resp, None), w3).
Proof.
  rewrite Login_body. cbv zeta. split.
  - destruct (repo.ByEmailWithPassword (UserCredentials.Email creds) (outside s))
      as [[user err0] w].
    destruct err0 as [e|]; [discriminate|].
    destruct user as [user|]; [|discriminate].
    destruct (CompareHashAndPassword (User.Password user)
                (UserCredentials.Password creds)) as [e|] eqn:Hc; [discriminate|].
    destruct (GenerateToken user w) as [[token err1] w1] eqn:H1.
    destruct err1 as [e|]; [discriminate|].
    destruct (GenerateRefreshToken (User.ID user) w1) as [[refreshToken err2] w2] eqn:H2.
    destruct err2 as [e|]; [discriminate|].
    cbn [fst]. intros [= <-]. exists user, w, w1, w2. cbn. auto.
  - intros (user & w1 & w2 & w3 & -> & -> & -> & ->). destruct resp; reflexivity.
Qed.

(** X10. An error of the comparison other than the mismatch (a malformed
    stored hash, say) is returned by Login as it is, not as invalid
    credentials; no token is generated. *)
Theorem Login_hash_error_passed creds (s : state W) user e w1 :
  repo.ByEmailWithPassword (UserCredentials.Email creds) (outside s)
    = ((Some user, None), w1) ->
  CompareHashAndPassword (User.Password user) (UserCredentials.Password creds)
    = Some e ->
  errors.Is e bcrypt.ErrMismatchedHashAndPassword = false ->
  Login (Some creds) s =
    (Returned (None, Some e),
     mkstate w1 (trace s ++
       [(userRepo_ByEmailWithPassword (UserCredentials.Email creds), None)])).
Proof.
  intros H Hc He. rewrite Login_body. cbv zeta. rewrite H, Hc, He. reflexivity.
Qed.

(** X11. The calls of one Login are, in this order and each only if the one
    before it returned a nil error: the lookup with password, GenerateToken,
    GenerateRefreshToken.  No call is made for nil credentials, and none on
    the revocation store or on Create. *)
Theorem Login_calls creds (s : state W) :
  exists delta,
    trace (snd (Login creds s)) = trace s ++ delta /\
    fail_fast delta = true /\
    match map fst delta with
    | [] => creds = None
    | [userRepo_ByEmailWithPassword _] => True
    | [userRepo_ByEmailWithPassword _; authService_GenerateToken _] => True
    | [userRepo_ByEmailWithPassword _; authService_GenerateToken _;
       authService_GenerateRefreshToken _] => True
    | _ => False
    end.
Proof.
  destruct creds as [creds|].
  2:{ exists []. split; [symmetry; apply app_nil_r|]. split; reflexivity. }
  rewrite Login_body. cbv zeta. answers.
  all: eexists; cbn [snd trace]; rewrite <- ?app_assoc;
    split; [reflexivity|]; split; [reflexivity|exact I].
Qed.

(** X12. An error Login returns is one of the three it builds itself (no
    credentials, user not found, invalid credentials), or the error of the
    last call it made on a collaborator, or the error of the comparison of
    the password with the hash. *)
Theorem Login_error_origin creds (s : state W) :
  match Login creds s with
  | (Returned (_, Some e), s') =>
      In e [no_credentials; user_not_found; invalid_credentials] \/
      (exists c, last_call (trace s') = Some (c, Some e)) \/
      (exists hashedPassword password,
          CompareHashAndPassword hashedPassword password = Some e)
  | _ => True
  end.
Proof.
  destruct creds as [creds|]; [|left; left; reflexivity].
  rewrite Login_body. cbv zeta. unfold lookup_result.
  destruct (repo.ByEmailWithPassword (UserCredentials.Email creds) (outside s))
    as [[user err0] w].
  destruct err0 as [e|].
  { destruct (errors.Is e sql.ErrNoRows); cbn [snd].
    - left. right. left. reflexivity.
    - right. left. eexists. apply last_call_app. }
  destruct user as [user|]; [|exact I].
  destruct (CompareHashAndPassword (User.Password user)
              (UserCredentials.Password creds)) as [e|] eqn:Hc.
  { destruct (errors.Is e bcrypt.ErrMismatchedHashAndPassword).
    - left. right. right. left. reflexivity.
    - right. right. eauto. }
  destruct (GenerateToken user w) as [[token err1] w1].
  destruct err1 as [e|]; [right; left; eexists; apply last_call_app|].
  destruct (GenerateRefreshToken (User.ID user) w1) as [[refreshToken err2] w2].
  destruct err2 as [e|]; [right; left; eexists; apply last_call_app|exact I].
Qed.

(** *** The paths of RefreshToken and Logout *)

(** X13. The calls of one RefreshToken for a user are, in this order and
    each only if the one before it returned a nil error: the lookup of the
    refresh record, then either the delete of the record alone, or
    GenerateToken, GenerateRefreshToken and BlacklistToken.  A call that
    deletes generates nothing, and the old access token is blacklisted only
    after both new tokens exist. *)
Theorem RefreshToken_calls jwtToken user refreshToken expiresAt (s : state W) :
  exists delta,
    trace (snd (RefreshToken jwtToken (Some user) refreshToken expiresAt s))
      = trace s ++ delta /\
    fail_fast delta = true /\
    match map fst delta with
    | [authService_ByRefreshToken _ _] => True
    | [authService_ByRefreshToken _ _; authService_DeleteRefreshToken _] => True
    | [authService_ByRefreshToken _ _; authService_GenerateToken _] => True
    | [authService_ByRefreshToken _ _; authService_GenerateToken _;
       authService_GenerateRefreshToken _] => True
    | [authService_ByRefreshToken _ _; authService_GenerateToken _;
       authService_GenerateRefreshToken _; authService_BlacklistToken _ _ _] => True
    | _ => False
    end.
Proof.
  rewrite RefreshToken_run. cbv zeta. answers.
  all: eexists; cbn [snd trace]; rewrite <- ?app_assoc;
    split; [reflexivity|]; split; [reflexivity|exact I].
Qed.

(** X14. RefreshToken returns a response exactly when the lookup returned a
    record with no error, the record does not expire before the instant
    read from the clock, both tokens were generated without error, and the
    old access token was then added to the revocation store without error;
    the response carries the two new tokens. *)
Theorem RefreshToken_success_iff jwtToken user refreshToken expiresAt
    (s : state W) resp :
  fst (RefreshToken jwtToken (Some user) refreshToken expiresAt s)
    = Returned (Some resp, None) <->
  exists rt w1 now w2 w3 w4 w5,
    ByRefreshToken (User.ID user) refreshToken (outside s) = ((Some rt, None), w1) /\
    Now w1 = (now, w2) /\
    time.Before (RefreshToken.ExpiresAt rt) now = false /\
    GenerateToken user w2 = ((JWTResponse.Token resp, None), w3) /\
    GenerateRefreshToken (User.ID user) w3
      = ((JWTResponse.RefreshToken resp, None), w4) /\
    BlacklistToken jwtToken (User.ID user) expiresAt w4 = (None, w5).
Proof.
  rewrite RefreshToken_run. cbv zeta. split.
  - destruct (ByRefreshToken (User.ID user) refreshToken (outside s))
      as [[rt err0] w1].
    destruct err0 as [e|]; [discriminate|].
    destruct rt as [rt|]; [|discriminate].
    destruct (Now w1) as [now w2] eqn:HN.
    destruct (time.Before (RefreshToken.ExpiresAt rt) now) eqn:HB.
    { destruct (DeleteRefreshToken (User.ID user) w2) as [[e|] w3]; discriminate. }
    destruct (GenerateToken user w2) as [[newJwtToken err1] w3] eqn:H1.
    destruct err1 as [e|]; [discriminate|].
    destruct (GenerateRefreshToken (User.ID user) w3)
      as [[newRefreshToken err2] w4] eqn:H2.
    destruct err2 as [e|]; [discriminate|].
    destruct (BlacklistToken jwtToken (User.ID user) expiresAt w4)
      as [[e|] w5] eqn:H3; [discriminate|].
    cbn [fst]. intros [= <-]. exists rt, w1, now, w2, w3, w4, w5. cbn.
    repeat split; auto.
  - intros (rt & w1 & now & w2 & w3 & w4 & w5 & -> & -> & -> & -> & -> & ->).
    destruct resp; reflexivity.
Qed.

(** X15. A refresh record that expires at the very instant read from the
    clock is not treated as expired: the record is not deleted, and the call
    goes on to generate the access token. *)
Theorem RefreshToken_at_expiry_instant jwtToken user refreshToken expiresAt
    (s : state W) rt w1 now w2 :
  ByRefreshToken (User.ID user) refreshToken (outside s) = ((Some rt, None), w1) ->
  Now w1 = (now, w2) ->
  RefreshToken.ExpiresAt rt = now ->
  exists err rest,
    trace (snd (RefreshToken jwtToken (Some user) refreshToken expiresAt s))
      = trace s ++
        (authService_ByRefreshToken (User.ID user) refreshToken, None)
        :: (authService_GenerateToken user, err) :: rest /\
    ~ In (authService_DeleteRefreshToken (User.ID user)) (map fst rest).
Proof.
  intros H0 HN Heq. rewrite RefreshToken_run. cbv zeta. rewrite H0, HN, Heq.
  unfold time.Before. rewrite Z.ltb_irrefl.
  destruct (GenerateToken user w2) as [[newJwtToken err1] w3].
  destruct err1 as [e|].
  { exists (Some e), []. cbn [snd trace]. rewrite <- app_assoc. split; [reflexivity|].
    intros []. }
  destruct (GenerateRefreshToken (User.ID user) w3) as [[newRefreshToken err2] w4].
  destruct err2 as [e|].
  { eexists None, [_]. cbn [snd trace]. rewrite <- !app_assoc.
    split; [reflexivity|]. cbn. intros [H|[]]. discriminate. }
  destruct (BlacklistToken jwtToken (User.ID user) expiresAt w4) as [err3 w5].
  eexists None, [_; _]. cbn [snd trace]. rewrite <- !app_assoc.
  split; [reflexivity|]. cbn. intros [H|[H|[]]]; discriminate.
Qed.

(** X16. What Logout returns is, error or nil, what the last call it made
    returned; and an error RefreshToken returns is either ErrUnauthorized or
    the error of the last call it made. *)
Theorem Logout_RefreshToken_error_origin token claims jwtToken user
    refreshToken expiresAt (s : state W) :
  match Logout token (Some claims) s with
  | (Returned err, s') => exists c, last_call (trace s') = Some (c, err)
  | _ => True
  end /\
  match RefreshToken jwtToken (Some user) refreshToken expiresAt s with
  | (Returned (_, Some e), s') =>
      e = ErrUnauthorized \/ exists c, last_call (trace s') = Some (c, Some e)
  | _ => True
  end.
Proof.
  split.
  - rewrite Logout_run. cbv zeta.
    destruct (BlacklistToken token (JWTCustomClaims.UserID claims)
                (JWTCustomClaims.ExpiresAt claims) (outside s)) as [[e|] w1];
      [eexists; apply last_call_app|].
    destruct (DeleteRefreshToken (JWTCustomClaims.UserID claims) w1) as [err1 w2].
    eexists; apply last_call_app.
  - rewrite RefreshToken_run. cbv zeta.
    destruct (ByRefreshToken (User.ID user) refreshToken (outside s))
      as [[rt err0] w1].
    destruct err0 as [e|]; [right; eexists; apply last_call_app|].
    destruct rt as [rt|]; [|exact I].
    destruct (Now w1) as [now w2].
    destruct (time.Before (RefreshToken.ExpiresAt rt) now).
    { destruct (DeleteRefreshToken (User.ID user) w2) as [[e|] w3];
        [right; eexists; apply last_call_app | left; reflexivity]. }
    destruct (GenerateToken user w2) as [[newJwtToken err1] w3].
    destruct err1 as [e|]; [right; eexists; apply last_call_app|].
    destruct (GenerateRefreshToken (User.ID user) w3) as [[newRefreshToken err2] w4].
    destruct err2 as [e|]; [right; eexists; apply last_call_app|].
    destruct (BlacklistToken jwtToken (User.ID user) expiresAt w4) as [[e|] w5];
      [right; eexists; apply last_call_app | exact I].
Qed.

(** *** Nil pointers *)

(** X17. The service dereferences four pointers without a test.  Login
    panics when the lookup returns a nil user with a nil error, and
    RefreshToken when the lookup returns a nil record with a nil error, in
    both cases right after that call; Logout called with nil claims and
    RefreshToken called with a nil user panic before any call. *)
Theorem nil_dereferences (s : state W) :
  (forall creds w1,
      repo.ByEmailWithPassword (UserCredentials.Email creds) (outside s)
        = ((None, None), w1) ->
      Login (Some creds) s =
        (Panicked,
         mkstate w1 (trace s ++
           [(userRepo_ByEmailWithPassword (UserCredentials.Email creds), None)]))) /\
  (forall jwtToken user refreshToken expiresAt w1,
      ByRefreshToken (User.ID user) refreshToken (outside s) = ((None, None), w1) ->
      RefreshToken jwtToken (Some user) refreshToken expiresAt s =
        (Panicked,
         mkstate w1 (trace s ++
           [(authService_ByRefreshToken (User.ID user) refreshToken, None)]))) /\
  (forall token, Logout token None s = (Panicked, s)) /\
  (forall jwtToken refreshToken expiresAt,
      RefreshToken jwtToken None refreshToken expiresAt s = (Panicked, s)).
Proof.
  split; [|split; [|split]].
  - intros creds w1 H. rewrite Login_body. cbv zeta. rewrite H. reflexivity.
  - intros jwtToken user refreshToken expiresAt w1 H.
    rewrite RefreshToken_run. cbv zeta. rewrite H. reflexivity.
  - reflexivity.
  - reflexivity.
Qed.

End Paths.

(** ** Runs of the further properties *)

Section MoreRuns.

Import design scenario.
Local Open Scope Z_scope.

Lemma SignUp_creates_with_hash_witness :
  fst (SignUp (Some (UserSignup.mk "b@x.com" "hunter2")) (mkstate w0 []))
    = Returned None /\
  map fst (trace (snd (SignUp (Some (UserSignup.mk "b@x.com" "hunter2"))
                              (mkstate w0 []))))
    = [userRepo_ByEmail "b@x.com";
       userRepo_Create "user-v1" "b@x.com" (digest_prefix +:+ "hunter2")].
Proof.
  erewrite (SignUp_creates_with_hash (UserSignup.mk "b@x.com" "hunter2")
              (mkstate w0 []) None (Some sql.ErrNoRows)).
  - split; reflexivity.
  - reflexivity.
  - right. exists sql.ErrNoRows. split; reflexivity.
  - reflexivity.
  - reflexivity.
  - reflexivity.
Defined.

Lemma SignUp_create_error_wrapped_witness :
  exists r,
    fst (SignUp (Some (UserSignup.mk "b@x.com" "hunter2"))
                (mkstate (set_faults [None; Some Timeout] w0) []))
      = Returned (Some r) /\
    errors.Is r context.DeadlineExceeded = true /\
    errors.Is r sql.ErrNoRows = false /\
    errors.same r context.DeadlineExceeded = false.
Proof.
  edestruct (SignUp_create_error_wrapped (UserSignup.mk "b@x.com" "hunter2")
               (mkstate (set_faults [None; Some Timeout] w0) [])
               None (Some sql.ErrNoRows)) as (r & Hr & Htext & Hup & HIs & Hself).
  - reflexivity.
  - right. exists sql.ErrNoRows. split; reflexivity.
  - reflexivity.
  - reflexivity.
  - reflexivity.
  - exists r. split; [exact Hr|].
    split; [rewrite (HIs context.DeadlineExceeded _ eq_refl); reflexivity|].
    split; [rewrite (HIs sql.ErrNoRows _ eq_refl); reflexivity|].
    cbn in Hr. injection Hr as <-. reflexivity.
Defined.

Lemma SignUp_lookup_failure_witness :
  SignUp (Some (UserSignup.mk "a@x.com" "hunter2"))
         (mkstate (set_faults [Some Timeout] w0) []) =
    (Returned (Some context.DeadlineExceeded),
     mkstate (pop (set_faults [Some Timeout] w0))
       [(userRepo_ByEmail "a@x.com", Some context.DeadlineExceeded)]).
Proof.
  apply (SignUp_lookup_failure (UserSignup.mk "a@x.com" "hunter2")
           (mkstate (set_faults [Some Timeout] w0) []) None); reflexivity.
Defined.

Lemma SignUp_hash_failure_witness :
  let long :=
    "0123456789012345678901234567890123456789012345678901234567890123456789012" in
  @SignUp world design.userRepo stub.strict_runtime
    (Some (UserSignup.mk "b@x.com" long)) (mkstate w0 []) =
    (Returned (Some stub.ErrPasswordTooLong),
     mkstate (pop w0) [(userRepo_ByEmail "b@x.com", Some sql.ErrNoRows)]).
Proof.
  cbv zeta.
  apply (SignUp_hash_failure (runtime := stub.strict_runtime)
           (UserSignup.mk "b@x.com" _) (mkstate w0 []) None (Some sql.ErrNoRows)
           (pop w0) "").
  - reflexivity.
  - right. exists sql.ErrNoRows. split; reflexivity.
  - reflexivity.
Defined.

Lemma Login_success_iff_witness :
  fst (Login (Some (UserCredentials.mk "a@x.com" "secret123")) (mkstate w0 []))
    = Returned (Some (JWTResponse.mk "v1" "v2"), None).
Proof.
  apply (proj2 (Login_success_iff (UserCredentials.mk "a@x.com" "secret123")
                  (mkstate w0 []) (JWTResponse.mk "v1" "v2"))).
  eexists alice, _, _, _. repeat split; reflexivity.
Defined.

Lemma Login_hash_error_passed_witness :
  let w := mkworld [User.mk 2 "user-09c1" "b@x.com" "plain"] ∅ ∅ 10 values 0 5000 [] in
  Login (Some (UserCredentials.mk "b@x.com" "plain")) (mkstate w []) =
    (Returned (None, Some bcrypt.ErrHashTooShort),
     mkstate (pop w) [(userRepo_ByEmailWithPassword "b@x.com", None)]).
Proof.
  cbv zeta.
  apply (Login_hash_error_passed (UserCredentials.mk "b@x.com" "plain")
           (mkstate _ []) (User.mk 2 "user-09c1" "b@x.com" "plain"));
    reflexivity.
Defined.

Lemma RefreshToken_success_iff_witness :
  fst (RefreshToken "A0" (Some alice) "v0" 500 (mkstate w0 []))
    = Returned (Some (JWTResponse.mk "v1" "v2"), None).
Proof.
  apply (proj2 (RefreshToken_success_iff "A0" alice "v0" 500 (mkstate w0 [])
                  (JWTResponse.mk "v1" "v2"))).
  eexists R0, _, _, _, _, _, _. repeat split; reflexivity.
Defined.

Lemma RefreshToken_at_expiry_instant_witness :
  let w := mkworld [alice] {[ 1%N := R0 ]} ∅ 1000 values 1 5000 [] in
  exists err rest,
    trace (snd (RefreshToken "A0" (Some alice) "v0" 500 (mkstate w [])))
      = [] ++ (authService_ByRefreshToken 1 "v0", None)
              :: (authService_GenerateToken alice, err) :: rest /\
    ~ In (authService_DeleteRefreshToken 1) (map fst rest).
Proof.
  cbv zeta.
  apply (RefreshToken_at_expiry_instant "A0" alice "v0" 500 (mkstate _ []) R0
           (pop (mkworld [alice] {[ 1%N := R0 ]} ∅ 1000 values 1 5000 []))
           1000
           (pop (mkworld [alice] {[ 1%N := R0 ]} ∅ 1000 values 1 5000 [])));
    reflexivity.
Defined.

Lemma nil_dereferences_witness :
  @Login world stub.nil_repo design.authService design.runtime
    (Some (UserCredentials.mk "a@x.com" "secret123")) (mkstate w0 []) =
    (Panicked, mkstate w0 [(userRepo_ByEmailWithPassword "a@x.com", None)]) /\
  @RefreshToken world stub.nil_auth design.runtime
    "A0" (Some alice) "v0" 500 (mkstate w0 []) =
    (Panicked, mkstate w0 [(authService_ByRefreshToken 1 "v0", None)]).
Proof.
  split.
  - apply (proj1 (nil_dereferences (userRepo := stub.nil_repo) (mkstate w0 []))
             (UserCredentials.mk "a@x.com" "secret123") w0).
    reflexivity.
  - apply (proj1 (proj2 (nil_dereferences (authService := stub.nil_auth)
                           (mkstate w0 [])))
             "A0" alice "v0" 500 w0).
    reflexivity.
Defined.

End MoreRuns.
